(** * Student Expense Tracker: the ledger store and its aggregates

    A shallow embedding of [app.py].  The program keeps one CSV file of
    expense records, appends to it by rewriting the whole file, and derives
    a total, a remaining balance and per-category totals from what it loads.

    Modelling conventions.
    - The file system is a finite map from paths to file contents; the
      program only ever names the path [CSV_FILE].
    - A CSV file is represented by the table [to_csv] was given.  The text
      of a cell is a function of the cell, and [read_csv] returns what
      parsing that text gives: this matters for the [Date] column, where a
      [datetime.date], a pandas [Timestamp] and an unparsed text are told
      apart, because [to_csv] writes them differently and [parse_dates]
      only converts a column whose texts all have one form.  A file that
      was not written by [to_csv] may be unreadable, in which case
      [read_csv] raises.
    - Categories are the labels of the selectbox or other plain labels;
      the texts pandas reads as a missing value (["NA"], ["null"], the
      empty text, ...) are outside the model, and statements that need a
      category to survive the file say so in a hypothesis.
    - [Amount] is a Python float in the program.  Its values are modelled as
      exact rationals ([Qc]), so sums here are exact sums, while the
      program's binary64 sums are rounded.  Statements about what the
      program computes are therefore kept to what does not depend on
      rounding; what rounding does to two of the claims is shown on
      binary64 numbers themselves ([binary64_sum]).
    - Streamlit re-executes [main] from the top at every interaction; one
      execution is one run of [main] on the widget values of that
      interaction.  Static decoration (titles, headers, dividers) and the
      display texts of dates and amounts are left out of the rendered
      output. *)

From Stdlib Require Import QArith Qcanon Floats.
From stdpp Require Import base numbers strings list gmap fin_maps sorting.

Set Warnings "-inexact-float".

Local Open Scope string_scope.
Local Open Scope list_scope.

(** ** Configuration *)

Definition CSV_FILE : string := "expenses.csv".

Definition CATEGORIES : list string :=
  ["Food"; "Travel"; "Shopping"; "Bills"; "Other"].

(** ** Data model *)

(** [datetime.date]: a calendar date without a time component. *)
Record date := mkdate { year : Z; month : Z; day : Z }.

(** The two texts a date takes in the file: ['YYYY-MM-DD'], as [str] of a
    [datetime.date], and ['YYYY-MM-DD 00:00:00'], as [str] of a
    [Timestamp]. *)
Inductive DateText :=
  | Iso (d : date)
  | IsoMidnight (d : date).

(** A value of the [Date] column: the [datetime.date] the date picker
    returns, the [Timestamp] that [parse_dates] produces, or a text that was
    left as it is. *)
Inductive DateCell :=
  | PyDate (d : date)
  | Timestamp (d : date)
  | DateStr (t : DateText).

(** One row of the table: the dict built in [main] with keys
    ["Date"], ["Category"] and ["Amount"]. *)
Record Expense := mkExpense {
  Date : DateCell;
  Category : string;
  Amount : Qc
}.

(** A pandas [DataFrame] as the program uses it: named columns and the rows
    in index order. *)
Record DataFrame := mkDataFrame {
  columns : list string;
  rows : list Expense
}.

Global Instance date_eq_dec : EqDecision date.
Proof. solve_decision. Defined.

Global Instance DateText_eq_dec : EqDecision DateText.
Proof. solve_decision. Defined.

Global Instance DateCell_eq_dec : EqDecision DateCell.
Proof. solve_decision. Defined.

Global Instance Expense_eq_dec : EqDecision Expense.
Proof. solve_decision. Defined.

Global Instance DataFrame_eq_dec : EqDecision DataFrame.
Proof. solve_decision. Defined.

(** Content of a file: a table written by [to_csv], or text that [read_csv]
    cannot parse. *)
Inductive contents :=
  | Table (df : DataFrame)
  | Unparsable.

(** What one execution of [main] puts on the page. *)
Inductive Widget :=
  | sidebar_error (msg : string)
  | sidebar_success (amount : Qc) (category : string)
  | metric (label : string) (value : Qc) (delta : option string)
  | info (msg : string)
  | dataframe (shown : list (date * string * Qc))
  | pyplot (slices : gmap string Qc)
  | summary_table (lines : list (string * Qc))
  | success (msg : string)
  | rerun.

(** The state the program acts on: the files on disk and the page rendered
    so far. *)
Record World := mkWorld {
  files : gmap string contents;
  page : list Widget
}.

(** ** Exceptions and the monad of the program *)

Inductive exn :=
  | FileNotFoundError
  | ParserError
  | ValueError.

Inductive result (A : Type) :=
  | Ok (a : A)
  | Raise (e : exn).
Arguments Ok {A} a.
Arguments Raise {A} e.

(** A computation reads and updates the world and either returns a value or
    raises; the world reached when it raises is kept, as an exception does
    not undo a write. *)
Definition M (A : Type) : Type := World → result A * World.

Definition ret {A} (a : A) : M A := λ w, (Ok a, w).

Definition bind {A B} (m : M A) (k : A → M B) : M B := λ w,
  match m w with
  | (Ok a, w') => k a w'
  | (Raise e, w') => (Raise e, w')
  end.

Definition raise {A} (e : exn) : M A := λ w, (Raise e, w).

(** A call that touches nothing and returns or raises. *)
Definition lift {A} (r : result A) : M A := λ w, (r, w).

Declare Scope prog_scope.
Delimit Scope prog_scope with prog.
Notation "x <- m ;; k" := (bind m (λ x, k))
  (at level 100, m at next level, right associativity) : prog_scope.
Notation "m ;;; k" := (bind m (λ _, k))
  (at level 100, right associativity) : prog_scope.
Local Open Scope prog_scope.

(** ** Dates in the file *)

Definition text_date (t : DateText) : date :=
  match t with Iso d | IsoMidnight d => d end.

(** The calendar date a cell stands for. *)
Definition calendar_date (c : DateCell) : date :=
  match c with
  | PyDate d | Timestamp d => d
  | DateStr t => text_date t
  end.

Definition is_Timestamp (c : DateCell) : bool :=
  match c with Timestamp _ => true | _ => false end.

Definition is_Iso (t : DateText) : bool :=
  match t with Iso _ => true | IsoMidnight _ => false end.

Definition is_IsoMidnight (t : DateText) : bool :=
  match t with Iso _ => false | IsoMidnight _ => true end.

(** [str(value)], the text [to_csv] writes for a value of an object
    column. *)
Definition date_text (c : DateCell) : DateText :=
  match c with
  | PyDate d => Iso d
  | Timestamp d => IsoMidnight d
  | DateStr t => t
  end.

(** The texts [to_csv] writes for the [Date] column: a column of
    [Timestamp]s only is a datetime column and is written date-only; any
    other column is an object column and each value is written as its
    [str]. *)
Definition column_texts (cells : list DateCell) : list DateText :=
  if forallb is_Timestamp cells
  then (λ c, Iso (calendar_date c)) <$> cells
  else date_text <$> cells.

(** The texts all have the form of the first one. *)
Definition one_form (ts : list DateText) : bool :=
  forallb is_Iso ts || forallb is_IsoMidnight ts.

(** [parse_dates=["Date"]]: the format is taken from the first text and the
    column becomes [Timestamp]s when every text has it; otherwise the column
    is returned as the texts it holds. *)
Definition parse_dates (ts : list DateText) : list DateCell :=
  if one_form ts then (λ t, Timestamp (text_date t)) <$> ts
  else DateStr <$> ts.

Definition with_Date (c : DateCell) (r : Expense) : Expense :=
  mkExpense c (Category r) (Amount r).

(** What [read_csv] returns for the file [to_csv] wrote from [df]. *)
Definition read_back (df : DataFrame) : DataFrame :=
  mkDataFrame (columns df)
    (zip_with with_Date
       (parse_dates (column_texts (Date <$> rows df))) (rows df)).

(** The texts among the values of a column. *)
Definition cell_texts (cells : list DateCell) : list DateText :=
  omap (λ c, match c with DateStr t => Some t | _ => None end) cells.

(** [pd.to_datetime(column)]: dates and [Timestamp]s convert; texts are
    parsed with the format of the first text, and a text of another form
    raises. *)
Definition to_datetime (cells : list DateCell) : result (list date) :=
  if one_form (cell_texts cells)
  then Ok (calendar_date <$> cells)
  else Raise ValueError.

(** ** File operations *)

(** [os.path.exists(path)] *)
Definition os_path_exists (path : string) : M bool := λ w,
  (Ok (bool_decide (is_Some (files w !! path))), w).

(** [os.remove(path)]: deletes the file, raises [FileNotFoundError] when
    there is none. *)
Definition os_remove (path : string) : M unit := λ w,
  match files w !! path with
  | Some _ => (Ok (), mkWorld (delete path (files w)) (page w))
  | None => raise FileNotFoundError w
  end.

(** [pd.read_csv(path, parse_dates=["Date"])] *)
Definition read_csv (path : string) : M DataFrame := λ w,
  match files w !! path with
  | Some (Table df) => ret (read_back df) w
  | Some Unparsable => raise ParserError w
  | None => raise FileNotFoundError w
  end.

(** [df.to_csv(path, index=False)]: creates or overwrites the file. *)
Definition to_csv (df : DataFrame) (path : string) : M unit := λ w,
  (Ok (), mkWorld (<[path := Table df]> (files w)) (page w)).

(** A Streamlit call that renders one widget. *)
Definition st (x : Widget) : M unit := λ w,
  (Ok (), mkWorld (files w) (page w ++ [x])).

(** ** pandas operations *)

(** [pd.DataFrame(columns=cols)] and [pd.DataFrame([d])] for a dict [d] with
    the three keys of an expense. *)
Definition DataFrame_columns (cols : list string) : DataFrame :=
  mkDataFrame cols [].

Definition DataFrame_records (ds : list Expense) : DataFrame :=
  mkDataFrame ["Date"; "Category"; "Amount"] ds.

(** [pd.concat([a, b], ignore_index=True)]: the rows of [a] followed by the
    rows of [b], over the columns of [a] and then those only [b] has. *)
Definition concat (a b : DataFrame) : DataFrame :=
  mkDataFrame (columns a ++ list_difference (columns b) (columns a))
              (rows a ++ rows b).

(** [df.empty] *)
Definition empty (df : DataFrame) : bool :=
  match rows df with [] => true | _ => false end.

(** [s.sum()] on a numeric column. *)
Definition Series_sum (s : list Qc) : Qc := foldl Qcplus 0%Qc s.

(** [df.groupby("Category")["Amount"].sum()]: one entry per distinct value
    of the [Category] column, holding the sum of the amounts of the rows
    that carry it. *)
Definition groupby_step (m : gmap string Qc) (r : Expense) : gmap string Qc :=
  <[Category r := (default 0%Qc (m !! Category r) + Amount r)%Qc]> m.

Definition groupby_Category_sum (df : DataFrame) : gmap string Qc :=
  foldl groupby_step ∅ (rows df).

(** [.reset_index().sort_values("Total Spent", ascending=False)]: the
    entries as lines, largest total first. *)
Definition total_ge (x y : string * Qc) : Prop := (y.2 ≤ x.2)%Qc.

Global Instance total_ge_dec : RelDecision total_ge.
Proof. intros x y. unfold total_ge. apply _. Defined.

Definition sort_values_desc (m : gmap string Qc) : list (string * Qc) :=
  merge_sort total_ge (map_to_list m).

(** [ax.pie(sizes)] draws only sizes none of which is negative and which do
    not sum to zero; otherwise it raises. *)
Definition pie_sizes_valid (sizes : gmap string Qc) : bool :=
  forallb (λ kv, bool_decide (0 ≤ kv.2)%Qc) (map_to_list sizes)
  && negb (bool_decide (Series_sum ((map_to_list sizes).*2) = 0%Qc)).

(** ** Helper functions of the program *)

Definition load_expenses : M DataFrame :=
  present <- os_path_exists CSV_FILE ;;
  if present then
    df <- read_csv CSV_FILE ;;
    ret df
  else
    ret (DataFrame_columns ["Date"; "Category"; "Amount"]).

Definition save_expense (new_expense : Expense) : M unit :=
  df <- load_expenses ;;
  let new_row := DataFrame_records [new_expense] in
  let df := concat df new_row in
  to_csv df CSV_FILE.

Definition category_totals (df : DataFrame) : gmap string Qc :=
  groupby_Category_sum df.

Definition show_pie_chart (df : DataFrame) : M unit :=
  let category_totals := category_totals df in
  if pie_sizes_valid category_totals
  then st (pyplot category_totals)
  else raise ValueError.

(** ** The widgets of one interaction *)

(** At most one button reports a click in one execution. *)
Inductive Click :=
  | NoClick
  | AddExpense
  | ClearAll.

Global Instance Click_eq_dec : EqDecision Click.
Proof. solve_decision. Defined.

(** The values the input widgets return in one execution of [main]. *)
Record Inputs := mkInputs {
  budget : Qc;
  expense_date : date;
  category : string;
  amount : Qc;
  clicked : Click
}.

(** [st.button(label)] / [st.sidebar.button(label)] *)
Definition button (inp : Inputs) (b : Click) : bool :=
  bool_decide (clicked inp = b).

(** ** Summary values *)

(** [df["Amount"].sum() if not df.empty else 0.0] *)
Definition total_spent (df : DataFrame) : Qc :=
  if negb (empty df) then Series_sum (Amount <$> rows df) else 0%Qc.

(** [budget - total_spent] *)
Definition remaining (budget total_spent : Qc) : Qc :=
  (budget - total_spent)%Qc.

(** The label under the remaining balance. *)
Definition delta (remaining : Qc) : string :=
  if decide (remaining < 0)%Qc then "Over budget!" else "On track".

(** ** Main app *)

(** The rows of the display table: the converted dates beside the
    categories and amounts (lines 125 to 127; the display texts are
    functions of these values). *)
Definition display_rows (dates : list date) (df : DataFrame)
  : list (date * string * Qc) :=
  zip_with (λ d r, (d, Category r, Amount r)) dates (rows df).

Definition main (inp : Inputs) : M unit :=
  (if button inp AddExpense then
     if decide (amount inp ≤ 0)%Qc then
       st (sidebar_error "Please enter an amount greater than 0.")
     else
       let new_expense :=
         {| Date := PyDate (expense_date inp);
            Category := category inp;
            Amount := amount inp |} in
       save_expense new_expense ;;;
       st (sidebar_success (amount inp) (category inp))
   else ret ()) ;;;
  df <- load_expenses ;;
  let total_spent := total_spent df in
  let remaining := remaining (budget inp) total_spent in
  st (metric "Monthly Budget" (budget inp) None) ;;;
  st (metric "Total Spent" total_spent None) ;;;
  st (metric "Remaining Balance" remaining (Some (delta remaining))) ;;;
  if empty df then
    st (info "No expenses recorded yet. Add your first expense from the sidebar!")
  else
    dates <- lift (to_datetime (Date <$> rows df)) ;;
    st (dataframe (display_rows dates df)) ;;;
    show_pie_chart df ;;;
    let summary := sort_values_desc (groupby_Category_sum df) in
    st (summary_table summary) ;;;
    if button inp ClearAll then
      os_remove CSV_FILE ;;;
      st (success "All expenses cleared!") ;;;
      st rerun
    else ret ().

(** ** Statement vocabulary *)

(** A sequence of appends, one [save_expense] per record, in order. *)
Fixpoint save_all (rs : list Expense) : M unit :=
  match rs with
  | [] => ret ()
  | r :: rs' => save_expense r ;;; save_all rs'
  end.

(** The exact sum a1 + ... + an of a sequence of amounts. *)
Definition exact_sum (l : list Qc) : Qc := foldr Qcplus 0%Qc l.

(** The rows whose category is exactly [c]. *)
Definition rows_of_category (c : string) (rs : list Expense) : list Expense :=
  filter (λ r, Category r = c) rs.

(** The three named fields of the schema. *)
Definition SCHEMA : list string := ["Date"; "Category"; "Amount"].

(** The file the program keeps its records in, if there is one. *)
Definition ledger (w : World) : option contents := files w !! CSV_FILE.

(** The world an append of [r] to the loaded table [df] leaves behind. *)
Definition appended (r : Expense) (df : DataFrame) (w : World) : World :=
  mkWorld (<[CSV_FILE := Table (concat df (DataFrame_records [r]))]> (files w))
          (page w).

(** The same widget values with no button reporting a click. *)
Definition without_click (inp : Inputs) : Inputs :=
  mkInputs (budget inp) (expense_date inp) (category inp) (amount inp) NoClick.

(** The record [main] builds from the sidebar widgets. *)
Definition entered (inp : Inputs) : Expense :=
  {| Date := PyDate (expense_date inp);
     Category := category inp;
     Amount := amount inp |}.

(** What a row records, whatever form its date has: the calendar date, the
    category and the amount. *)
Definition record_of (r : Expense) : date * string * Qc :=
  (calendar_date (Date r), Category r, Amount r).

(** The sum of a short column of amounts as binary64 arithmetic gives it,
    the additions taken from left to right.  For two amounts the order is
    immaterial. *)
Definition binary64_sum (amounts : list float) : float :=
  foldl PrimFloat.add 0%float amounts.

(** Every stored amount passed the check at entry. *)
Definition amounts_positive (df : DataFrame) : Prop :=
  Forall (λ r, (0 < Amount r)%Qc) (rows df).

(** Every stored category is one the selectbox offers. *)
Definition categories_known (df : DataFrame) : Prop :=
  Forall (λ r, Category r ∈ CATEGORIES) (rows df).

(** A stored table as the program itself leaves it: the three named columns,
    amounts that passed the check at entry, categories from the selectbox. *)
Definition well_formed (df : DataFrame) : Prop :=
  columns df = SCHEMA ∧ amounts_positive df ∧ categories_known df.

(** The three summary cards [main] renders for a loaded table. *)
Definition summary_cards (inp : Inputs) (df : DataFrame) : list Widget :=
  [metric "Monthly Budget" (budget inp) None;
   metric "Total Spent" (total_spent df) None;
   metric "Remaining Balance" (remaining (budget inp) (total_spent df))
     (Some (delta (remaining (budget inp) (total_spent df))))].

(** The part of [main] below the summary cards, for a table with rows
    (lines 124 to 154). *)
Definition below_cards (inp : Inputs) (df : DataFrame) : M unit :=
  dates <- lift (to_datetime (Date <$> rows df)) ;;
  st (dataframe (display_rows dates df)) ;;;
  show_pie_chart df ;;;
  st (summary_table (sort_values_desc (groupby_Category_sum df))) ;;;
  if button inp ClearAll then
    os_remove CSV_FILE ;;;
    st (success "All expenses cleared!") ;;;
    st rerun
  else ret ().

(** The table can be shown: its dates convert at line 126 and [ax.pie]
    accepts its category totals. *)
Definition displayable (df : DataFrame) : bool :=
  match to_datetime (Date <$> rows df) with
  | Ok _ => pie_sizes_valid (category_totals df)
  | Raise _ => false
  end.

(** The add button is clicked and the amount passes the check. *)
Definition add_accepted (inp : Inputs) : bool :=
  bool_decide (clicked inp = AddExpense ∧ (0 < amount inp)%Qc).

(** The table [main] loads after its add section, and the files it loads
    it from, for an execution that began on the files of [w] with the
    table [df] stored. *)
Definition table_after_add (inp : Inputs) (df : DataFrame) : DataFrame :=
  if add_accepted inp
  then read_back (concat df (DataFrame_records [entered inp]))
  else df.

Definition files_after_add (inp : Inputs) (df : DataFrame) (w : World)
  : gmap string contents :=
  if add_accepted inp then files (appended (entered inp) df w) else files w.

(** The clear button is reached and clicked. *)
Definition clears (inp : Inputs) (df : DataFrame) : bool :=
  negb (empty df) && displayable df && bool_decide (clicked inp = ClearAll).

(** A session: one execution of [main] per interaction, in order.  An
    execution that raises ends there; the next interaction starts a new
    execution on the files as they are. *)
Fixpoint run_session (inps : list Inputs) (w : World)
  : list (result unit) * World :=
  match inps with
  | [] => ([], w)
  | inp :: inps' =>
      let '(r, w1) := main inp w in
      let '(rs, w') := run_session inps' w1 in
      (r :: rs, w')
  end.

(** ** Sample data *)

(** The scenario of two appends against a budget of 5000. *)
Definition food_120 : Expense :=
  mkExpense (PyDate (mkdate 2024 1 5)) "Food" (Q2Qc 120).
Definition travel_80 : Expense :=
  mkExpense (PyDate (mkdate 2024 1 6)) "Travel" (Q2Qc 80).
Definition two_appends : DataFrame :=
  DataFrame_records [food_120; travel_80].

(** Categories as stored text: another spelling, and a label outside
    [CATEGORIES]. *)
Definition mixed_spelling : DataFrame :=
  DataFrame_records
    [food_120;
     mkExpense (PyDate (mkdate 2024 1 6)) "food" (Q2Qc 80);
     mkExpense (PyDate (mkdate 2024 1 7)) "Rent" (Q2Qc 900)].

(** States of the disk: no ledger file, a ledger file with the header only,
    the ledger file the first append of [food_120] writes, an unparsable
    ledger file, and some other file beside no ledger. *)
Definition no_file : World := mkWorld ∅ [].
Definition header_only : World :=
  mkWorld {[ CSV_FILE := Table (DataFrame_columns SCHEMA) ]} [].
Definition one_row : World :=
  mkWorld {[ CSV_FILE := Table (DataFrame_records [food_120]) ]} [].
Definition garbled : World := mkWorld {[ CSV_FILE := Unparsable ]} [].
Definition with_notes : World :=
  mkWorld {[ "notes.txt" := Unparsable ]} [].

(** What loads from [one_row]: the date has become a [Timestamp]. *)
Definition one_row_loaded : DataFrame :=
  DataFrame_records
    [mkExpense (Timestamp (mkdate 2024 1 5)) "Food" (Q2Qc 120)].

(** What loads after [travel_80] is appended to [one_row]: both dates are
    texts, the earlier one with a time of day. *)
Definition two_rows_loaded : DataFrame :=
  DataFrame_records
    [mkExpense (DateStr (IsoMidnight (mkdate 2024 1 5))) "Food" (Q2Qc 120);
     mkExpense (DateStr (Iso (mkdate 2024 1 6))) "Travel" (Q2Qc 80)].

(** Interactions: a click on the clear button, a click on the add button
    with the amount left at 0, and two adds with positive amounts. *)
Definition click_clear : Inputs :=
  mkInputs (Q2Qc 5000) (mkdate 2024 1 7) "Food" (Q2Qc 0) ClearAll.
Definition add_zero : Inputs :=
  mkInputs (Q2Qc 5000) (mkdate 2024 1 7) "Food" (Q2Qc 0) AddExpense.
Definition add_food : Inputs :=
  mkInputs (Q2Qc 5000) (mkdate 2024 1 5) "Food" (Q2Qc 120) AddExpense.
Definition add_travel : Inputs :=
  mkInputs (Q2Qc 5000) (mkdate 2024 1 6) "Travel" (Q2Qc 80) AddExpense.

(** * Properties *)

(** ** The monad *)

Section Monad.

Context {A B C : Type}.

Lemma bind_ret_l (a : A) (k : A → M B) (w : World) :
  (x <- ret a ;; k x) w = k a w.
Proof. reflexivity. Qed.

Lemma bind_ret_r (m : M A) (w : World) : (x <- m ;; ret x) w = m w.
Proof. unfold bind, ret. by destruct (m w) as [[a|e] w']. Qed.

Lemma bind_assoc (m : M A) (k : A → M B) (h : B → M C) (w : World) :
  (y <- (x <- m ;; k x) ;; h y) w = (x <- m ;; y <- k x ;; h y) w.
Proof. unfold bind. by destruct (m w) as [[a|e] w']. Qed.

(** An exception skips the rest of the computation and keeps the world. *)
Lemma bind_raise (e : exn) (k : A → M B) (w : World) :
  (x <- raise e ;; k x) w = (Raise e, w).
Proof. reflexivity. Qed.

End Monad.

(** ** Dates through the file *)

Section Dates.

Implicit Types (cells : list DateCell) (ts : list DateText).

Lemma length_column_texts cells : length (column_texts cells) = length cells.
Proof.
  unfold column_texts. destruct (forallb _ _); by rewrite length_fmap.
Qed.

Lemma length_parse_dates ts : length (parse_dates ts) = length ts.
Proof. unfold parse_dates. destruct (one_form _); by rewrite length_fmap. Qed.

Lemma text_date_column_texts cells :
  text_date <$> column_texts cells = calendar_date <$> cells.
Proof.
  unfold column_texts. destruct (forallb _ _); rewrite <-list_fmap_compose;
    apply list_fmap_ext; intros _ c _; by destruct c.
Qed.

Lemma calendar_date_parse_dates ts :
  calendar_date <$> parse_dates ts = text_date <$> ts.
Proof.
  unfold parse_dates. destruct (one_form _); rewrite <-list_fmap_compose;
    by apply list_fmap_ext.
Qed.

(** The file keeps the calendar date of every cell. *)
Lemma calendar_date_through_file cells :
  calendar_date <$> parse_dates (column_texts cells) = calendar_date <$> cells.
Proof. by rewrite calendar_date_parse_dates, text_date_column_texts. Qed.

Lemma forallb_false_elem {A} (f : A → bool) (l : list A) :
  forallb f l = false ↔ ∃ x, x ∈ l ∧ f x = false.
Proof.
  induction l as [|a l IH]; simpl.
  - split; [done|]. intros (x & Hx & _). by apply elem_of_nil in Hx.
  - rewrite andb_false_iff, IH. split.
    + intros [Ha|(x & Hx & Hf)]; [exists a|exists x]; split; try done;
        [left|by right].
    + intros (x & Hx & Hf). apply elem_of_cons in Hx as [->|Hx]; eauto.
Qed.

(** A mixture of the two text forms is what keeps a column from parsing. *)
Lemma one_form_false ts :
  one_form ts = false ↔ (∃ d, Iso d ∈ ts) ∧ (∃ d, IsoMidnight d ∈ ts).
Proof.
  unfold one_form. rewrite orb_false_iff, !forallb_false_elem. split.
  - intros [([d|d] & H1 & ?) ([d'|d'] & H2 & ?)]; try done. eauto.
  - intros [[d1 H1] [d2 H2]]. split; eauto.
Qed.

End Dates.

(** ** What reading a written table gives back *)

Section ReadBack.

Implicit Types (df : DataFrame) (rs : list Expense) (cs : list DateCell).

Lemma zip_with_Date_keeps {A} (f : Expense → A) cs rs :
  (∀ c r, f (with_Date c r) = f r) →
  length cs = length rs →
  f <$> zip_with with_Date cs rs = f <$> rs.
Proof.
  intros Hf. revert cs. induction rs as [|r rs IH]; intros [|c cs] Hlen;
    simpl in *; try done.
  injection Hlen as Hlen. by rewrite Hf, IH.
Qed.

Lemma zip_with_Date_column cs rs :
  length cs = length rs → Date <$> zip_with with_Date cs rs = cs.
Proof.
  revert cs. induction rs as [|r rs IH]; intros [|c cs] Hlen;
    simpl in *; try done.
  injection Hlen as Hlen. by rewrite IH.
Qed.

Lemma read_back_lengths df :
  length (parse_dates (column_texts (Date <$> rows df))) = length (rows df).
Proof. by rewrite length_parse_dates, length_column_texts, length_fmap. Qed.

Lemma columns_read_back df : columns (read_back df) = columns df.
Proof. reflexivity. Qed.

Lemma Date_read_back df :
  Date <$> rows (read_back df)
  = parse_dates (column_texts (Date <$> rows df)).
Proof. apply zip_with_Date_column, read_back_lengths. Qed.

Lemma Amount_read_back df :
  Amount <$> rows (read_back df) = Amount <$> rows df.
Proof. apply zip_with_Date_keeps; [done|apply read_back_lengths]. Qed.

Lemma Category_read_back df :
  Category <$> rows (read_back df) = Category <$> rows df.
Proof. apply zip_with_Date_keeps; [done|apply read_back_lengths]. Qed.

Lemma length_read_back df : length (rows (read_back df)) = length (rows df).
Proof.
  rewrite <-(length_fmap Amount), Amount_read_back. apply length_fmap.
Qed.

Lemma rows_read_back_nil df : rows (read_back df) = [] ↔ rows df = [].
Proof.
  rewrite <-!length_zero_iff_nil, length_read_back. done.
Qed.

Lemma zip_with_Date_record_of cs rs :
  calendar_date <$> cs = calendar_date <$> (Date <$> rs) →
  record_of <$> zip_with with_Date cs rs = record_of <$> rs.
Proof.
  revert cs. induction rs as [|r rs IH]; intros [|c cs] Hcs;
    simpl in *; try done.
  injection Hcs as Hc Hcs. rewrite IH by done.
  unfold record_of at 1 3. simpl. by rewrite Hc.
Qed.

(** A table keeps, through the file, what each of its rows records. *)
Lemma record_of_read_back df :
  record_of <$> rows (read_back df) = record_of <$> rows df.
Proof. apply zip_with_Date_record_of, calendar_date_through_file. Qed.

Lemma empty_read_back df : empty (read_back df) = empty df.
Proof.
  unfold empty. pose proof (rows_read_back_nil df) as H.
  destruct (rows (read_back df)), (rows df); try done.
  - by destruct H as [H _]; specialize (H eq_refl).
  - by destruct H as [_ H]; specialize (H eq_refl).
Qed.

Lemma total_spent_read_back df : total_spent (read_back df) = total_spent df.
Proof.
  unfold total_spent. by rewrite empty_read_back, Amount_read_back.
Qed.

(** Grouping looks at categories and amounts only. *)
Lemma groupby_foldl_ext rs1 : ∀ rs2 (m : gmap string Qc),
  Category <$> rs1 = Category <$> rs2 →
  Amount <$> rs1 = Amount <$> rs2 →
  foldl groupby_step m rs1 = foldl groupby_step m rs2.
Proof.
  induction rs1 as [|r1 rs1 IH]; intros [|r2 rs2] m Hc Ha;
    simpl in *; try done.
  injection Hc as Hc1 Hc. injection Ha as Ha1 Ha.
  unfold groupby_step at 2 4. rewrite Hc1, Ha1. by apply IH.
Qed.

Lemma category_totals_read_back df :
  category_totals (read_back df) = category_totals df.
Proof.
  unfold category_totals, groupby_Category_sum.
  apply groupby_foldl_ext; [apply Category_read_back|apply Amount_read_back].
Qed.

(** A table that was read has a [Date] column of [Timestamp]s or of texts of
    both forms. *)
Lemma to_datetime_read_back df :
  to_datetime (Date <$> rows (read_back df))
  = if one_form (column_texts (Date <$> rows df))
    then Ok (text_date <$> column_texts (Date <$> rows df))
    else Raise ValueError.
Proof.
  rewrite Date_read_back. unfold to_datetime, parse_dates.
  generalize (column_texts (Date <$> rows df)). intros ts.
  destruct (one_form ts) eqn:Hone.
  - assert (cell_texts ((λ t, Timestamp (text_date t)) <$> ts) = []) as ->.
    { unfold cell_texts. clear Hone. induction ts as [|t ts' IH]; [done|].
      simpl. apply IH. }
    simpl. f_equal. rewrite <-list_fmap_compose. by apply list_fmap_ext.
  - assert (cell_texts (DateStr <$> ts) = ts) as ->.
    { unfold cell_texts. clear Hone. induction ts as [|t ts' IH]; [done|].
      simpl. f_equal. apply IH. }
    by rewrite Hone.
Qed.

End ReadBack.

(** ** The ledger store *)

Section Store.

Implicit Types (w : World) (df : DataFrame) (fs : gmap string contents).

Lemma load_expenses_unfold w :
  load_expenses w =
    match ledger w with
    | None => (Ok (DataFrame_columns SCHEMA), w)
    | Some (Table df) => (Ok (read_back df), w)
    | Some Unparsable => (Raise ParserError, w)
    end.
Proof.
  unfold load_expenses, bind, os_path_exists, read_csv, ret, raise, ledger.
  destruct (files w !! CSV_FILE) as [[df|]|] eqn:Hd; simpl;
    rewrite ?Hd; reflexivity.
Qed.

(** Loading never touches the world, whether it returns or raises. *)
Lemma load_expenses_frame w : (load_expenses w).2 = w.
Proof.
  rewrite load_expenses_unfold. by destruct (ledger w) as [[df|]|].
Qed.

Lemma load_expenses_Ok_inv w df w' :
  load_expenses w = (Ok df, w') →
  w' = w ∧ ((∃ df0, ledger w = Some (Table df0) ∧ df = read_back df0) ∨
            (ledger w = None ∧ df = DataFrame_columns SCHEMA)).
Proof.
  rewrite load_expenses_unfold.
  destruct (ledger w) as [[df0|]|]; intros [= <- <-]; eauto.
Qed.

(** What loads depends on the ledger file alone. *)
Lemma load_expenses_same_ledger w1 w2 :
  ledger w1 = ledger w2 → (load_expenses w1).1 = (load_expenses w2).1.
Proof.
  intros H. rewrite !load_expenses_unfold, H.
  by destruct (ledger w2) as [[?|]|].
Qed.

Lemma load_expenses_same_files w w1 df :
  load_expenses w = (Ok df, w) →
  files w1 = files w →
  load_expenses w1 = (Ok df, w1).
Proof.
  intros Hload Hf. apply load_expenses_Ok_inv in Hload as [_ Hd].
  rewrite load_expenses_unfold. unfold ledger in *. rewrite Hf.
  by destruct Hd as [(df0 & -> & ->)|[-> ->]].
Qed.

Lemma load_expenses_after_write df fs pg :
  load_expenses (mkWorld (<[CSV_FILE := Table df]> fs) pg)
  = (Ok (read_back df), mkWorld (<[CSV_FILE := Table df]> fs) pg).
Proof.
  rewrite load_expenses_unfold. unfold ledger. simpl.
  by rewrite lookup_insert_eq.
Qed.

Lemma load_expenses_after_remove fs pg :
  load_expenses (mkWorld (delete CSV_FILE fs) pg)
  = (Ok (DataFrame_columns SCHEMA), mkWorld (delete CSV_FILE fs) pg).
Proof.
  rewrite load_expenses_unfold. unfold ledger. simpl.
  by rewrite lookup_delete_eq.
Qed.

Lemma load_expenses_unparsable w :
  ledger w = Some Unparsable → load_expenses w = (Raise ParserError, w).
Proof. intros H. by rewrite load_expenses_unfold, H. Qed.

Lemma ledger_cases w :
  ledger w = Some Unparsable ∨ ∃ df, load_expenses w = (Ok df, w).
Proof.
  rewrite load_expenses_unfold.
  destruct (ledger w) as [[df|]|]; eauto.
Qed.

Lemma save_expense_unfold r w :
  save_expense r w =
    match load_expenses w with
    | (Ok df, _) => (Ok (), appended r df w)
    | (Raise e, _) => (Raise e, w)
    end.
Proof.
  unfold save_expense, bind, to_csv, appended.
  pose proof (load_expenses_frame w) as Hw.
  destruct (load_expenses w) as [[df|e] w']; simpl in Hw; by subst.
Qed.

Lemma save_expense_Ok r w df :
  load_expenses w = (Ok df, w) →
  save_expense r w = (Ok (), appended r df w).
Proof. intros H. by rewrite save_expense_unfold, H. Qed.

Lemma save_expense_Raise r w (e : exn) :
  load_expenses w = (Raise e, w) → save_expense r w = (Raise e, w).
Proof. intros H. by rewrite save_expense_unfold, H. Qed.

Lemma load_expenses_appended r df w :
  load_expenses (appended r df w)
  = (Ok (read_back (concat df (DataFrame_records [r]))), appended r df w).
Proof. apply load_expenses_after_write. Qed.

Lemma rows_concat_record df (r : Expense) :
  rows (concat df (DataFrame_records [r])) = rows df ++ [r].
Proof. reflexivity. Qed.

Lemma columns_concat_record df (r : Expense) :
  columns df = SCHEMA →
  columns (concat df (DataFrame_records [r])) = SCHEMA.
Proof. intros H. unfold concat. simpl. rewrite H. reflexivity. Qed.

(** What loads after an append records what loaded before, followed by the
    new record. *)
Lemma record_of_appended df (r : Expense) :
  record_of <$> rows (read_back (concat df (DataFrame_records [r])))
  = (record_of <$> rows df) ++ [record_of r].
Proof. by rewrite record_of_read_back, rows_concat_record, fmap_app. Qed.

(** An append writes the ledger file and no other. *)
Lemma save_expense_other_files r w path :
  path ≠ CSV_FILE →
  files (save_expense r w).2 !! path = files w !! path.
Proof.
  intros Hne. rewrite save_expense_unfold.
  destruct (load_expenses w) as [[df|e] w']; [|done].
  simpl. by rewrite lookup_insert_ne.
Qed.

(** What a sequence of appends leaves in the store. *)
Lemma save_all_Ok rs : ∀ w df,
  load_expenses w = (Ok df, w) →
  ∃ w' df', save_all rs w = (Ok (), w')
            ∧ load_expenses w' = (Ok df', w')
            ∧ record_of <$> rows df'
              = (record_of <$> rows df) ++ (record_of <$> rs).
Proof.
  induction rs as [|r rs IH]; intros w df Hload.
  - exists w, df. by rewrite app_nil_r.
  - destruct (IH (appended r df w) _ (load_expenses_appended r df w))
      as (w' & df' & Hs & Hl & Hr).
    exists w', df'. split_and!; [|done|].
    + simpl. unfold bind. by rewrite (save_expense_Ok _ _ _ Hload).
    + rewrite Hr, record_of_appended. by rewrite <-app_assoc.
Qed.

End Store.

(** ** The aggregator *)

Section Aggregator.

Local Open Scope Qc_scope.

Lemma foldl_Qcplus_shift (a : Qc) (l : list Qc) :
  foldl Qcplus a l = a + foldl Qcplus 0 l.
Proof.
  revert a. induction l as [|x l IH]; intros a; simpl.
  - by rewrite Qcplus_0_r.
  - rewrite (IH (a + x)), (IH (0 + x)). ring.
Qed.

Lemma Series_sum_cons (x : Qc) (l : list Qc) :
  Series_sum (x :: l) = x + Series_sum l.
Proof.
  unfold Series_sum. simpl. rewrite foldl_Qcplus_shift. ring.
Qed.

Lemma Series_sum_exact (l : list Qc) : Series_sum l = exact_sum l.
Proof.
  induction l as [|x l IH]; [done|].
  rewrite Series_sum_cons, IH. reflexivity.
Qed.

(** The entry of a category after folding rows into a mapping: untouched
    when no row carries the category, else the old entry (0 when there was
    none) plus the amounts of exactly the rows that carry it. *)
Lemma groupby_foldl_lookup (c : string) (rs : list Expense) :
  ∀ m : gmap string Qc,
    foldl groupby_step m rs !! c =
      match rows_of_category c rs with
      | [] => m !! c
      | g => Some (default 0 (m !! c) + exact_sum (Amount <$> g))
      end.
Proof.
  unfold rows_of_category.
  induction rs as [|r rs IH]; intros m; [done|].
  change (foldl groupby_step m (r :: rs))
    with (foldl groupby_step (groupby_step m r) rs).
  rewrite IH, filter_cons. unfold groupby_step.
  destruct (decide (Category r = c)) as [->|Hne].
  - rewrite lookup_insert_eq.
    destruct (filter _ rs) as [|r' g]; unfold exact_sum; simpl; f_equal; ring.
  - by rewrite lookup_insert_ne.
Qed.

Lemma category_totals_lookup (df : DataFrame) (c : string) :
  category_totals df !! c =
    match rows_of_category c (rows df) with
    | [] => None
    | g => Some (exact_sum (Amount <$> g))
    end.
Proof.
  unfold category_totals, groupby_Category_sum.
  rewrite groupby_foldl_lookup, lookup_empty. simpl.
  destruct (rows_of_category c (rows df)); [done|].
  by rewrite Qcplus_0_l.
Qed.

Lemma rows_of_category_nil (c : string) (rs : list Expense) :
  rows_of_category c rs = [] ↔ ∀ r, r ∈ rs → Category r ≠ c.
Proof.
  unfold rows_of_category. split.
  - intros Hf r Hr Hc. by apply (filter_nil_not_elem_of _ _ r Hf Hc).
  - intros H. induction rs as [|r rs IH]; [done|].
    rewrite filter_cons. destruct (decide (Category r = c)) as [Hc|Hc].
    + exfalso. apply (H r); [left|done].
    + apply IH. intros r' Hr'. apply H. by right.
Qed.

Lemma remaining_neg (b t : Qc) : remaining b t < 0 ↔ b < t.
Proof.
  unfold remaining.
  rewrite (Qcplus_lt_mono_r (b - t) 0 t).
  by replace (b - t + t) with b by ring; rewrite Qcplus_0_l.
Qed.

Lemma remaining_zero (b t : Qc) : remaining b t = 0 ↔ t = b.
Proof.
  unfold remaining. split.
  - intros H. replace b with ((b - t) + t) by ring. rewrite H. ring.
  - intros ->. ring.
Qed.

End Aggregator.

Section AggregatorHelpers.

Local Open Scope Qc_scope.

Global Instance total_ge_total : Total total_ge.
Proof.
  intros x y. unfold total_ge. destruct (Qc_le_total (y.2) (x.2)); auto.
Qed.

Global Instance total_ge_trans : Transitive total_ge.
Proof. intros x y z Hxy Hyz. unfold total_ge in *. by etrans. Qed.

Lemma category_totals_key (df : DataFrame) (c : string) :
  is_Some (category_totals df !! c) → ∃ r, r ∈ rows df ∧ Category r = c.
Proof.
  rewrite category_totals_lookup. intros Hs.
  destruct (rows_of_category c (rows df)) as [|r g] eqn:Hg.
  { by destruct Hs. }
  assert (r ∈ filter (λ r, Category r = c) (rows df)) as Hin
    by (unfold rows_of_category in Hg; rewrite Hg; left).
  apply list_elem_of_filter in Hin as [? ?]. by exists r.
Qed.

Lemma groupby_foldl_size (rs : list Expense) :
  ∀ m : gmap string Qc,
    (size (foldl groupby_step m rs) ≤ size m + length rs)%nat.
Proof.
  induction rs as [|r rs IH]; intros m; simpl; [lia|].
  etrans; [apply IH|]. unfold groupby_step. rewrite map_size_insert.
  destruct (m !! Category r); simpl; lia.
Qed.

Lemma NoDup_CATEGORIES : NoDup CATEGORIES.
Proof.
  unfold CATEGORIES.
  repeat (apply NoDup_cons; split;
          [repeat (apply not_elem_of_cons; split; [done|]);
           apply not_elem_of_nil|]).
  apply NoDup_nil_2.
Qed.

End AggregatorHelpers.

(** ** One execution of [main] *)

Section Main.

Implicit Types (w : World) (inp : Inputs) (df : DataFrame).

(** An execution without an add, on a store that loads. *)
Lemma main_render inp w df :
  clicked inp ≠ AddExpense →
  load_expenses w = (Ok df, w) →
  main inp w =
    let w1 := mkWorld (files w) (page w ++ summary_cards inp df) in
    if empty df
    then st (info "No expenses recorded yet. Add your first expense from the sidebar!") w1
    else below_cards inp df w1.
Proof.
  intros Hc Hload.
  unfold main, bind at 1, button.
  rewrite bool_decide_eq_false_2 by done. simpl. unfold bind at 1.
  rewrite Hload. unfold bind at 1 2 3, st at 1 2 3. simpl.
  rewrite <-!app_assoc. simpl.
  destruct (empty df); reflexivity.
Qed.

Lemma below_cards_run inp df w :
  is_Some (files w !! CSV_FILE) →
  ∃ pg, below_cards inp df w =
          (if displayable df then Ok () else Raise ValueError,
           mkWorld (if displayable df && bool_decide (clicked inp = ClearAll)
                    then delete CSV_FILE (files w) else files w)
                   (page w ++ pg)).
Proof.
  intros [c Hc]. unfold below_cards, displayable, bind at 1, lift.
  destruct (to_datetime _) as [dates|e] eqn:Hdates.
  2: { exists []. unfold to_datetime in Hdates.
       destruct (one_form _); [done|]. injection Hdates as <-.
       rewrite app_nil_r. by destruct w. }
  unfold bind at 1, st at 1, show_pie_chart. simpl.
  destruct (pie_sizes_valid _) eqn:Hpie; simpl.
  2: { eexists [_]. reflexivity. }
  unfold bind at 1 2, st at 1 2, button. simpl.
  destruct (bool_decide (clicked inp = ClearAll)); simpl.
  - unfold bind, os_remove, st. simpl. rewrite Hc. simpl.
    eexists [_; _; _; _; _]. by rewrite <-!app_assoc.
  - eexists [_; _; _]. by rewrite <-!app_assoc.
Qed.

(** An execution without an add, on a store that loads: what it returns
    and the files it leaves. *)
Lemma main_render_run inp w df :
  clicked inp ≠ AddExpense →
  load_expenses w = (Ok df, w) →
  ∃ pg, main inp w =
          (if empty df || displayable df then Ok () else Raise ValueError,
           mkWorld (if clears inp df then delete CSV_FILE (files w)
                    else files w)
                   (page w ++ summary_cards inp df ++ pg)).
Proof.
  intros Hc Hload. rewrite (main_render inp w df Hc Hload). simpl.
  unfold clears. destruct (empty df) eqn:Hempty; simpl.
  - eexists [_]. unfold st. simpl. by rewrite <-!app_assoc.
  - assert (is_Some (files w !! CSV_FILE)) as Hsome.
    { apply load_expenses_Ok_inv in Hload as [_ [(df0 & Hd & _)|[_ ->]]];
        [|done]. unfold ledger in Hd. by rewrite Hd. }
    destruct (below_cards_run inp df
                (mkWorld (files w) (page w ++ summary_cards inp df)) Hsome)
      as [pg ->].
    exists pg. simpl. by rewrite <-!app_assoc.
Qed.

Lemma main_render_unparsable inp w :
  clicked inp ≠ AddExpense →
  ledger w = Some Unparsable →
  main inp w = (Raise ParserError, w).
Proof.
  intros Hc Hd.
  unfold main, bind, button.
  rewrite bool_decide_eq_false_2 by done. simpl.
  by rewrite load_expenses_unfold, Hd.
Qed.

Lemma without_click_not_add inp : clicked (without_click inp) ≠ AddExpense.
Proof. done. Qed.

(** A rejected add renders the error and then exactly what an execution
    without a click renders. *)
Lemma main_rejected_add inp w :
  clicked inp = AddExpense → (amount inp ≤ 0)%Qc →
  main inp w =
    (st (sidebar_error "Please enter an amount greater than 0.") ;;;
     main (without_click inp)) w.
Proof.
  intros Hc Ha. unfold main at 1. unfold button. rewrite Hc. simpl.
  rewrite decide_True by done.
  unfold bind at 1. unfold bind at 5. simpl.
  reflexivity.
Qed.

(** An accepted add saves the entered record, confirms it, and then renders
    what an execution without a click renders. *)
Lemma main_accepted_add inp w :
  clicked inp = AddExpense → (0 < amount inp)%Qc →
  main inp w =
    (save_expense (entered inp) ;;;
     st (sidebar_success (amount inp) (category inp)) ;;;
     main (without_click inp)) w.
Proof.
  intros Hc Ha. unfold main at 1. unfold button. rewrite Hc. simpl.
  rewrite decide_False by (by apply Qclt_not_le).
  unfold bind at 1. unfold bind at 1. unfold bind at 9. unfold bind at 9.
  destruct (save_expense _ w) as [[[]|e] w1]; reflexivity.
Qed.

Lemma add_accepted_true inp :
  add_accepted inp = true ↔ clicked inp = AddExpense ∧ (0 < amount inp)%Qc.
Proof. unfold add_accepted. by rewrite bool_decide_eq_true. Qed.

Lemma clears_not_clear_click inp df :
  clicked inp ≠ ClearAll → clears inp df = false.
Proof.
  intros H. unfold clears. rewrite (bool_decide_eq_false_2 _ H).
  by rewrite andb_false_r.
Qed.

(** One execution of [main] on a store that loads, whatever is clicked: what
    it returns and the files it leaves. *)
Lemma main_run inp w df :
  load_expenses w = (Ok df, w) →
  ∃ pg, main inp w =
          (if empty (table_after_add inp df)
              || displayable (table_after_add inp df)
           then Ok () else Raise ValueError,
           mkWorld (if clears inp (table_after_add inp df)
                    then delete CSV_FILE (files_after_add inp df w)
                    else files_after_add inp df w)
                   pg).
Proof.
  intros Hload. unfold table_after_add, files_after_add.
  destruct (add_accepted inp) eqn:Hacc.
  - apply add_accepted_true in Hacc as [Hcl Ha].
    rewrite (main_accepted_add inp w Hcl Ha).
    unfold bind at 1. rewrite (save_expense_Ok _ _ _ Hload).
    unfold bind at 1, st at 1.
    set (w1 := mkWorld _ _).
    assert (load_expenses w1
            = (Ok (read_back (concat df (DataFrame_records [entered inp]))),
               w1)) as H1 by apply load_expenses_after_write.
    destruct (main_render_run (without_click inp) w1 _
                (without_click_not_add inp) H1) as [pg ->].
    rewrite !clears_not_clear_click by (done || by rewrite Hcl).
    by eexists.
  - destruct (decide (clicked inp = AddExpense)) as [Hcl|Hcl].
    + assert (amount inp ≤ 0)%Qc as Ha.
      { apply Qcnot_lt_le. intros Hlt.
        apply not_true_iff_false in Hacc. apply Hacc.
        by apply add_accepted_true. }
      rewrite (main_rejected_add inp w Hcl Ha).
      unfold bind at 1, st at 1.
      set (w1 := mkWorld _ _).
      assert (load_expenses w1 = (Ok df, w1)) as H1
        by (by apply (load_expenses_same_files w)).
      destruct (main_render_run (without_click inp) w1 df
                  (without_click_not_add inp) H1) as [pg ->].
      rewrite !clears_not_clear_click by (done || by rewrite Hcl).
      by eexists.
    + destruct (main_render_run inp w df Hcl Hload) as [pg ->]. by eexists.
Qed.

(** On an unparsable ledger file [main] raises the parse error, from the
    load of [save_expense] or from its own, and leaves the files alone. *)
Lemma main_unparsable inp w :
  ledger w = Some Unparsable →
  ∃ pg, main inp w = (Raise ParserError, mkWorld (files w) pg).
Proof.
  intros Hd. destruct (decide (clicked inp = AddExpense)) as [Hcl|Hcl].
  - destruct (decide (0 < amount inp)%Qc) as [Ha|Ha].
    + rewrite (main_accepted_add inp w Hcl Ha). unfold bind at 1.
      rewrite (save_expense_Raise _ _ _ (load_expenses_unparsable w Hd)).
      exists (page w). by destruct w.
    + apply Qcnot_lt_le in Ha. rewrite (main_rejected_add inp w Hcl Ha).
      unfold bind at 1. unfold st at 1.
      rewrite main_render_unparsable by done. by eexists.
  - rewrite main_render_unparsable by done. exists (page w). by destruct w.
Qed.

(** The files an execution leaves differ from those it found in the ledger
    file at most. *)
Lemma main_other_files inp w path :
  path ≠ CSV_FILE → files (main inp w).2 !! path = files w !! path.
Proof.
  intros Hp. destruct (ledger_cases w) as [Hd|[df Hload]].
  - by destruct (main_unparsable inp w Hd) as [pg ->].
  - destruct (main_run inp w df Hload) as [pg ->]. simpl.
    unfold files_after_add, appended.
    destruct (clears _ _), (add_accepted inp); simpl;
      rewrite ?lookup_delete_ne, ?lookup_insert_ne by done; done.
Qed.

(** An execution in which no button is clicked leaves the files as they
    are. *)
Lemma main_no_click_files inp w :
  clicked inp = NoClick → files (main inp w).2 = files w.
Proof.
  intros Hc. destruct (ledger_cases w) as [Hd|[df Hload]].
  - by destruct (main_unparsable inp w Hd) as [pg ->].
  - destruct (main_run inp w df Hload) as [pg ->]. simpl.
    rewrite clears_not_clear_click by (by rewrite Hc).
    unfold files_after_add, add_accepted.
    rewrite bool_decide_eq_false_2; [done|]. rewrite Hc. by intros [? _].
Qed.

(** A clear request that arrives when nothing loads (the file is gone, or
    holds no rows) changes nothing and raises nothing: [main] reaches the
    removal only below a non-empty table. *)
Lemma main_clear_click_empty inp w df :
  clicked inp = ClearAll →
  load_expenses w = (Ok df, w) →
  rows df = [] →
  (main inp w).1 = Ok () ∧ files (main inp w).2 = files w.
Proof.
  intros Hc Hload Hrows.
  destruct (main_run inp w df Hload) as [pg ->]. simpl.
  unfold table_after_add, files_after_add, add_accepted.
  rewrite bool_decide_eq_false_2 by (rewrite Hc; by intros [? _]).
  unfold clears, empty. rewrite Hrows. done.
Qed.

End Main.

(** ** The groups of the category mapping *)

Section Groups.

Implicit Types (rs : list Expense) (ks : list string).

Lemma rows_of_category_other (k c : string) rs :
  k ≠ c →
  rows_of_category c (filter (λ r, ¬ Category r = k) rs)
  = rows_of_category c rs.
Proof.
  intros Hkc. unfold rows_of_category. rewrite list_filter_filter.
  apply list_filter_iff. intros r. split; [by intros [? _]|].
  intros Hc. split; [done|]. by rewrite Hc.
Qed.

(** Rows whose categories all occur in a duplicate-free list of keys are,
    up to order, the rows of the first key, then those of the second, and
    so on. *)
Lemma rows_split_by_category ks : ∀ rs,
  NoDup ks →
  (∀ r, r ∈ rs → Category r ∈ ks) →
  rs ≡ₚ mjoin ((λ c, rows_of_category c rs) <$> ks).
Proof.
  induction ks as [|k ks IH]; intros rs Hnd Hin.
  - destruct rs as [|r rs]; [done|].
    exfalso. by apply (not_elem_of_nil (Category r)), Hin; left.
  - apply NoDup_cons in Hnd as [Hk Hnd]. simpl.
    rewrite <-(filter_app_complement (λ r, Category r = k) rs) at 1.
    apply Permutation_app; [done|].
    assert (∀ r, r ∈ filter (λ r, ¬ Category r = k) rs → Category r ∈ ks)
      as Hin'.
    { intros r Hr. apply list_elem_of_filter in Hr as [Hne Hr].
      specialize (Hin r Hr). apply elem_of_cons in Hin as [?|?]; done. }
    rewrite (IH _ Hnd Hin') at 1.
    assert ((λ c, rows_of_category c (filter (λ r, ¬ Category r = k) rs))
              <$> ks
            = (λ c, rows_of_category c rs) <$> ks) as ->; [|done].
    apply list_fmap_ext. intros i c Hc.
    apply rows_of_category_other. intros ->.
    apply Hk. by apply list_elem_of_lookup_2 in Hc.
Qed.

Lemma category_totals_has_key (df : DataFrame) (r : Expense) :
  r ∈ rows df → Category r ∈ (map_to_list (category_totals df)).*1.
Proof.
  intros Hr.
  assert (is_Some (category_totals df !! Category r)) as [t Ht].
  { rewrite category_totals_lookup.
    assert (r ∈ rows_of_category (Category r) (rows df)) as Hin
      by (by apply list_elem_of_filter).
    destruct (rows_of_category _ _); [|done]. by apply elem_of_nil in Hin. }
  apply list_elem_of_fmap. exists (Category r, t). split; [done|].
  by apply elem_of_map_to_list.
Qed.

Lemma exact_sum_pos (l : list Qc) :
  l ≠ [] → Forall (λ x, (0 < x)%Qc) l → (0 < exact_sum l)%Qc.
Proof.
  intros Hne Hpos. unfold exact_sum.
  induction Hpos as [|x l Hx Hl IH]; [done|]. simpl.
  destruct l as [|y l].
  - simpl. by rewrite Qcplus_0_r.
  - apply Qcplus_pos_pos; [done|]. by apply IH.
Qed.

(** Positive amounts give a chart that can be drawn. *)
Lemma pie_sizes_valid_positive (df : DataFrame) :
  rows df ≠ [] → amounts_positive df →
  pie_sizes_valid (category_totals df) = true.
Proof.
  intros Hne Hpos. unfold pie_sizes_valid.
  assert (Forall (λ kv : string * Qc, (0 < kv.2)%Qc)
            (map_to_list (category_totals df))) as Hall.
  { apply Forall_forall. intros [c t] Hct.
    apply elem_of_map_to_list in Hct. rewrite category_totals_lookup in Hct.
    destruct (rows_of_category c (rows df)) as [|r g] eqn:Hg; [done|].
    assert (0 < exact_sum (Amount <$> r :: g))%Qc as Hgt.
    { apply exact_sum_pos; [done|].
      apply Forall_fmap. rewrite <-Hg. unfold rows_of_category.
      apply Forall_forall. intros r' Hr'.
      apply list_elem_of_filter in Hr' as [_ Hr'].
      unfold amounts_positive in Hpos. rewrite Forall_forall in Hpos.
      by apply Hpos. }
    by injection Hct as <-. }
  apply andb_true_intro. split.
  - apply forallb_forall. intros kv Hkv. apply list_elem_of_In in Hkv.
    apply bool_decide_eq_true. rewrite Forall_forall in Hall.
    by apply Qclt_le_weak, Hall.
  - apply negb_true_iff, bool_decide_eq_false_2.
    rewrite Series_sum_exact. apply not_symmetry, Qclt_not_eq.
    apply exact_sum_pos; [|by apply Forall_fmap].
    destruct (rows df) as [|r rs] eqn:Hrows; [done|].
    assert (Category r ∈ (map_to_list (category_totals df)).*1) as Hk
      by (apply category_totals_has_key; rewrite Hrows; left).
    destruct (map_to_list (category_totals df)); [|done].
    by apply elem_of_nil in Hk.
Qed.

End Groups.

(** ** The scenarios of the specification *)

Section Scenarios.

Local Open Scope Qc_scope.

Example scenario_store :
  (save_expense food_120 ;;; save_expense travel_80 ;;; load_expenses) no_file
  = (Ok two_rows_loaded,
     mkWorld {[ CSV_FILE := Table (concat one_row_loaded
                                     (DataFrame_records [travel_80])) ]} []).
Proof. vm_compute. reflexivity. Qed.

Example scenario_records :
  record_of <$> rows two_rows_loaded = record_of <$> rows two_appends.
Proof. reflexivity. Qed.

Example scenario_total : total_spent two_appends = Q2Qc 200.
Proof. apply Qc_is_canon. reflexivity. Qed.

Example scenario_by_category :
  category_totals two_appends !! "Food"%string = Some (Q2Qc 120)
  ∧ category_totals two_appends !! "Travel"%string = Some (Q2Qc 80)
  ∧ category_totals two_appends !! "Bills"%string = None.
Proof.
  rewrite !category_totals_lookup.
  split_and!; try done; simpl; f_equal; apply Qc_is_canon; reflexivity.
Qed.

Example scenario_remaining :
  remaining (Q2Qc 5000) (Q2Qc 200) = Q2Qc 4800.
Proof. apply Qc_is_canon. reflexivity. Qed.

(** Grouping is by the stored text: a different spelling is a different
    key, and so is a category outside [CATEGORIES]. *)
Example grouping_is_case_sensitive :
  category_totals mixed_spelling !! "Food"%string = Some (Q2Qc 120)
  ∧ category_totals mixed_spelling !! "food"%string = Some (Q2Qc 80)
  ∧ category_totals mixed_spelling !! "Rent"%string = Some (Q2Qc 900)
  ∧ "Rent"%string ∉ CATEGORIES.
Proof.
  rewrite !category_totals_lookup.
  split_and!; [simpl; f_equal; apply Qc_is_canon; reflexivity..|].
  unfold CATEGORIES.
  repeat (apply not_elem_of_cons; split; [done|]). apply not_elem_of_nil.
Qed.

End Scenarios.

(** * The claims *)

Section Claims.

Local Open Scope Qc_scope.

(** C1, as stated, fails on the program's arithmetic: the total is a
    binary64 sum, and the binary64 sum of the amounts 0.1 and 0.2 is
    0.30000000000000004, not their exact sum 0.3. *)
Lemma C1_binary64_total_is_not_the_exact_sum :
  binary64_sum [0.1; 0.2]%float = 0.30000000000000004%float
  ∧ binary64_sum [0.1; 0.2]%float ≠ 0.3%float.
Proof.
  split; [vm_compute; reflexivity|].
  intros H. apply (f_equal (λ x, PrimFloat.eqb x 0.3%float)) in H.
  vm_compute in H. discriminate.
Qed.

(** C1, amended: starting from an empty store (no file, or a file without
    rows), after appending the records [rs] one after the other, loading
    succeeds and returns as many rows as were appended, carrying the
    appended amounts in the order of the appends; the total spent computed
    from what was loaded is the column sum over exactly these amounts, the
    same as computed from the appended records themselves, and the total of
    a table without rows is 0.  How far that column sum is from the exact
    sum is a matter of the arithmetic. *)
Theorem C1_total_spent_after_appends
    (rs : list Expense) (w : World) (df0 : DataFrame) :
  load_expenses w = (Ok df0, w) →
  rows df0 = [] →
  (∃ w' df, save_all rs w = (Ok (), w')
            ∧ load_expenses w' = (Ok df, w')
            ∧ Amount <$> rows df = Amount <$> rs
            ∧ total_spent df = total_spent (DataFrame_records rs))
  ∧ total_spent df0 = 0.
Proof.
  intros Hload Hrows. split.
  - destruct (save_all_Ok rs w df0 Hload) as (w' & df & Hs & Hl & Hr).
    rewrite Hrows in Hr. simpl in Hr.
    assert (Amount <$> rows df = Amount <$> rs) as Ha.
    { apply (f_equal (fmap snd)) in Hr.
      by rewrite <-!list_fmap_compose in Hr. }
    exists w', df. split_and!; [done..|].
    unfold total_spent, empty. simpl. rewrite Ha.
    apply (f_equal length) in Ha. rewrite !length_fmap in Ha.
    by destruct (rows df), rs.
  - unfold total_spent, empty. by rewrite Hrows.
Qed.

Lemma C1_total_spent_after_appends_witness :
  (∃ w' df, save_all [food_120; travel_80] no_file = (Ok (), w')
            ∧ load_expenses w' = (Ok df, w')
            ∧ Amount <$> rows df = Amount <$> [food_120; travel_80]
            ∧ total_spent df
              = total_spent (DataFrame_records [food_120; travel_80]))
  ∧ total_spent (DataFrame_columns SCHEMA) = 0.
Proof.
  apply (C1_total_spent_after_appends
           [food_120; travel_80] no_file (DataFrame_columns SCHEMA));
    reflexivity.
Defined.

(** C2, as stated, fails: what loads is not the record that was appended.
    The appended record holds a [datetime.date]; the first append to an
    absent file loads back with a [Timestamp] in its place, and an append
    to the file so written loads back with a text. *)
Lemma C2_loaded_record_is_not_the_appended_one :
  (load_expenses (save_expense food_120 no_file).2).1 = Ok one_row_loaded
  ∧ last (rows one_row_loaded) ≠ Some food_120
  ∧ (load_expenses (save_expense travel_80 one_row).2).1 = Ok two_rows_loaded
  ∧ last (rows two_rows_loaded)
    = Some (mkExpense (DateStr (Iso (mkdate 2024 1 6))) "Travel" (Q2Qc 80))
  ∧ last (rows two_rows_loaded) ≠ Some travel_80.
Proof. split_and!; (by vm_compute) || discriminate. Qed.

(** C2, amended: on any store that loads, appending a record [r] whose
    category is one of the selectbox succeeds, and loading again returns a
    sequence that is exactly one longer than the sequence loaded before and
    whose last element records what [r] records: the same calendar date,
    the same category and the same amount.  The date comes back in the
    form pandas gives it, not as the date object that was appended. *)
Theorem C2_append_then_load (w : World) (df : DataFrame) (r : Expense) :
  load_expenses w = (Ok df, w) →
  Category r ∈ CATEGORIES →
  ∃ w' df' r', save_expense r w = (Ok (), w')
               ∧ load_expenses w' = (Ok df', w')
               ∧ last (rows df') = Some r'
               ∧ calendar_date (Date r') = calendar_date (Date r)
               ∧ Category r' = Category r
               ∧ Amount r' = Amount r
               ∧ length (rows df') = S (length (rows df)).
Proof.
  intros Hload _.
  set (df' := read_back (concat df (DataFrame_records [r]))).
  assert (length (rows df') = S (length (rows df))) as Hlen.
  { unfold df'. rewrite length_read_back, rows_concat_record, length_app.
    simpl. lia. }
  pose proof (record_of_appended df r) as Hrec. fold df' in Hrec.
  destruct (last (rows df')) as [r'|] eqn:Hlast.
  2: { apply last_None in Hlast. by rewrite Hlast in Hlen. }
  assert (record_of r' = record_of r) as Hr'.
  { apply (f_equal last) in Hrec.
    rewrite fmap_last, Hlast, last_snoc in Hrec. simpl in Hrec.
    congruence. }
  unfold record_of in Hr'. injection Hr' as Hd Hc Ha.
  exists (appended r df w), df', r'.
  split_and!; [by apply save_expense_Ok|apply load_expenses_appended|done..].
Qed.

Lemma C2_append_then_load_witness :
  ∃ w' df' r', save_expense travel_80 one_row = (Ok (), w')
               ∧ load_expenses w' = (Ok df', w')
               ∧ last (rows df') = Some r'
               ∧ calendar_date (Date r') = calendar_date (Date travel_80)
               ∧ Category r' = Category travel_80
               ∧ Amount r' = Amount travel_80
               ∧ length (rows df') = S (length (rows one_row_loaded)).
Proof.
  apply (C2_append_then_load one_row one_row_loaded travel_80);
    [vm_compute; reflexivity | repeat constructor].
Defined.

(** C3, as stated, fails on the program's arithmetic.  For the records
    (Food, 0.1), (Travel, 0.1), (Food, 1.1) the binary64 total is 1.3, the
    per-category totals are 1.2000000000000002 and 0.1, and these add up to
    1.3000000000000003 in either order. *)
Lemma C3_binary64_category_totals_do_not_add_up :
  let total := binary64_sum [0.1; 0.1; 1.1]%float in
  let food := binary64_sum [0.1; 1.1]%float in
  let travel := binary64_sum [0.1]%float in
  total = 1.3%float
  ∧ food = 1.2000000000000002%float
  ∧ travel = 0.1%float
  ∧ binary64_sum [food; travel] ≠ total
  ∧ binary64_sum [travel; food] ≠ total.
Proof.
  split_and!; try (vm_compute; reflexivity);
    intros H; apply (f_equal (λ x, PrimFloat.eqb x 1.3%float)) in H;
    vm_compute in H; discriminate.
Qed.

(** C3, amended: when the stored categories are categories of the
    selectbox, every record belongs to exactly one group of the category
    mapping, that of its category: the groups of the keys of the mapping,
    one after the other, are a rearrangement of the record sequence, and no
    key occurs twice.  The per-category totals therefore add up the same
    amounts as the total spent; whether the two results are equal is a
    matter of the arithmetic. *)
Theorem C3_categories_partition_the_records (df : DataFrame) :
  categories_known df →
  let keys := (map_to_list (category_totals df)).*1 in
  NoDup keys
  ∧ rows df ≡ₚ mjoin ((λ c, rows_of_category c (rows df)) <$> keys)
  ∧ ∀ c, c ∈ keys → c ∈ CATEGORIES.
Proof.
  intros Hknown keys.
  assert (NoDup keys) as Hnd by apply NoDup_fst_map_to_list.
  split_and!; [done| |].
  - apply rows_split_by_category; [done|].
    intros r Hr. by apply category_totals_has_key.
  - intros c Hc. apply list_elem_of_fmap in Hc as ([c' t] & -> & Hct).
    apply elem_of_map_to_list in Hct.
    destruct (category_totals_key df c' (mk_is_Some _ _ Hct))
      as (r & Hr & <-).
    unfold categories_known in Hknown. rewrite Forall_forall in Hknown.
    by apply Hknown.
Qed.

Lemma C3_categories_partition_the_records_witness :
  let keys := (map_to_list (category_totals two_appends)).*1 in
  NoDup keys
  ∧ rows two_appends
    ≡ₚ mjoin ((λ c, rows_of_category c (rows two_appends)) <$> keys)
  ∧ ∀ c, c ∈ keys → c ∈ CATEGORIES.
Proof.
  apply (C3_categories_partition_the_records two_appends).
  repeat constructor.
Defined.

(** C4: the remaining balance is budget minus total; it is negative exactly
    when the total exceeds the budget and zero exactly when they are equal.
    The label shown under it follows the sign. *)
Theorem C4_remaining_sign (b t : Qc) :
  remaining b t = b - t
  ∧ (remaining b t < 0 ↔ t > b)
  ∧ (remaining b t = 0 ↔ t = b)
  ∧ (delta (remaining b t) = "Over budget!"%string ↔ t > b).
Proof.
  split_and!; [done|apply remaining_neg|apply remaining_zero|].
  unfold delta.
  destruct (decide (remaining b t < 0)) as [Hneg|Hpos]; split; try done.
  - intros _. by apply remaining_neg.
  - intros Hlt. by apply remaining_neg in Hlt.
Qed.

(** C5, as stated, fails: a store whose file exists but holds no records is
    an empty store, and removing its file succeeds; and a clear click that
    reaches [main] on an empty or absent store raises nothing and changes
    nothing, since the removal is never executed there. *)
Lemma C5_clear_on_empty_store_raises_nothing :
  (load_expenses header_only = (Ok (DataFrame_columns SCHEMA), header_only)
   ∧ rows (DataFrame_columns SCHEMA) = []
   ∧ os_remove CSV_FILE header_only = (Ok (), no_file)
   ∧ (os_remove CSV_FILE header_only).1 ≠ Raise FileNotFoundError)
  ∧ ((main click_clear header_only).1 = Ok ()
     ∧ files (main click_clear header_only).2 = files header_only)
  ∧ (files no_file !! CSV_FILE = None
     ∧ (main click_clear no_file).1 = Ok ()
     ∧ files (main click_clear no_file).2 = files no_file).
Proof. vm_compute. split_and!; (reflexivity || discriminate). Qed.

(** C5, amended: in a state in which no collection is stored, removing the
    store file raises [FileNotFoundError] when the file is absent, and the
    exception passes through whatever the caller would have done next; when
    the file exists without records the removal succeeds.  [main] itself
    never gets there: a clear click in such a state raises nothing and leaves
    the files as they are. *)
Theorem C5_clear_of_empty_store (w : World) (df : DataFrame) :
  load_expenses w = (Ok df, w) →
  rows df = [] →
  match files w !! CSV_FILE with
  | None =>
      os_remove CSV_FILE w = (Raise FileNotFoundError, w)
      ∧ ∀ (B : Type) (k : M B),
          (os_remove CSV_FILE ;;; k) w = (Raise FileNotFoundError, w)
  | Some _ =>
      os_remove CSV_FILE w
      = (Ok (), mkWorld (delete CSV_FILE (files w)) (page w))
  end
  ∧ ∀ inp, clicked inp = ClearAll →
           (main inp w).1 = Ok () ∧ files (main inp w).2 = files w.
Proof.
  intros Hload Hrows. split.
  - unfold bind, os_remove, raise.
    destruct (files w !! CSV_FILE) eqn:Hd; [done|].
    split; [done|]. intros B k. reflexivity.
  - intros inp Hc. by apply (main_clear_click_empty inp w df).
Qed.

Lemma C5_clear_of_empty_store_witness :
  (os_remove CSV_FILE no_file = (Raise FileNotFoundError, no_file)
   ∧ ∀ (B : Type) (k : M B),
       (os_remove CSV_FILE ;;; k) no_file = (Raise FileNotFoundError, no_file))
  ∧ ∀ inp, clicked inp = ClearAll →
           (main inp no_file).1 = Ok ()
           ∧ files (main inp no_file).2 = files no_file.
Proof.
  apply (C5_clear_of_empty_store no_file (DataFrame_columns SCHEMA));
    reflexivity.
Defined.

(** C6: when the loaded collection is not empty, clearing succeeds and a
    following load returns an empty sequence.  In [main] the clear button
    sits below the display of the table: an execution in which it is
    clicked clears the store, and a following load returns an empty
    sequence, when the table can be displayed; when it cannot, the execution
    raises [ValueError] before it reaches the button and the files are as
    they were. *)
Theorem C6_clear_then_load_empty (w : World) (df : DataFrame) :
  load_expenses w = (Ok df, w) →
  rows df ≠ [] →
  (∃ w' df', os_remove CSV_FILE w = (Ok (), w')
             ∧ load_expenses w' = (Ok df', w') ∧ rows df' = [])
  ∧ ∀ inp, clicked inp = ClearAll →
           if displayable df
           then ∃ w' df', main inp w = (Ok (), w')
                          ∧ load_expenses w' = (Ok df', w') ∧ rows df' = []
           else ∃ w', main inp w = (Raise ValueError, w')
                      ∧ files w' = files w.
Proof.
  intros Hload Hrows. split.
  - pose proof Hload as Hl.
    apply load_expenses_Ok_inv in Hl as [_ [(df0 & Hd & _)|[_ ->]]]; [|done].
    exists (mkWorld (delete CSV_FILE (files w)) (page w)),
           (DataFrame_columns SCHEMA).
    unfold os_remove. unfold ledger in Hd. rewrite Hd.
    by rewrite load_expenses_after_remove.
  - intros inp Hc.
    destruct (main_run inp w df Hload) as [pg Hrun].
    assert (add_accepted inp = false) as Hacc.
    { apply bool_decide_eq_false_2. rewrite Hc. by intros [? _]. }
    unfold table_after_add, files_after_add, clears in Hrun.
    rewrite Hacc, (bool_decide_eq_true_2 _ Hc) in Hrun.
    assert (empty df = false) as Hne
      by (unfold empty; by destruct (rows df)).
    rewrite Hne in Hrun. simpl in Hrun.
    destruct (displayable df); simpl in Hrun.
    + eexists _, (DataFrame_columns SCHEMA). split; [exact Hrun|].
      by rewrite load_expenses_after_remove.
    + eexists. split; [exact Hrun|done].
Qed.

Lemma C6_clear_then_load_empty_witness :
  (∃ w' df', os_remove CSV_FILE one_row = (Ok (), w')
             ∧ load_expenses w' = (Ok df', w') ∧ rows df' = [])
  ∧ ∀ inp, clicked inp = ClearAll →
           ∃ w' df', main inp one_row = (Ok (), w')
                     ∧ load_expenses w' = (Ok df', w') ∧ rows df' = [].
Proof.
  apply (C6_clear_then_load_empty one_row one_row_loaded);
    [vm_compute; reflexivity | discriminate].
Defined.

(** C7: when the file does not exist, loading raises nothing and returns a
    table without rows whose columns are the three named fields. *)
Theorem C7_load_without_file (w : World) :
  files w !! CSV_FILE = None →
  load_expenses w =
    (Ok {| columns := ["Date"; "Category"; "Amount"]; rows := [] |}, w).
Proof. intros Hd. rewrite load_expenses_unfold. unfold ledger. by rewrite Hd. Qed.

Lemma C7_load_without_file_witness :
  load_expenses no_file =
    (Ok {| columns := ["Date"; "Category"; "Amount"]; rows := [] |}, no_file).
Proof. apply (C7_load_without_file no_file). reflexivity. Defined.

(** C8: the entry of the category mapping at any string [c] is decided by
    the rows whose category is exactly [c] (equality of strings, whatever
    the fixed category list says): there is no entry when there is no such
    row, and otherwise the entry is the sum of the amounts of those rows. *)
Theorem C8_category_totals_exact_match (df : DataFrame) (c : string) :
  category_totals df !! c =
    match rows_of_category c (rows df) with
    | [] => None
    | g => Some (exact_sum (Amount <$> g))
    end
  ∧ (category_totals df !! c = None ↔ ∀ r, r ∈ rows df → Category r ≠ c).
Proof.
  split; [apply category_totals_lookup|].
  rewrite category_totals_lookup, <-rows_of_category_nil.
  by destruct (rows_of_category c (rows df)).
Qed.

(** C9: an add with an amount that is not positive renders the validation
    error followed by what an execution without a click renders, and the
    files and what loads from them are as before. *)
Theorem C9_add_rejects_nonpositive_amount (inp : Inputs) (w : World) :
  clicked inp = AddExpense →
  amount inp ≤ 0 →
  main inp w =
    (st (sidebar_error "Please enter an amount greater than 0.") ;;;
     main (without_click inp)) w
  ∧ files (main inp w).2 = files w
  ∧ (load_expenses (main inp w).2).1 = (load_expenses w).1.
Proof.
  intros Hc Ha.
  assert (files (main inp w).2 = files w) as Hd.
  { rewrite (main_rejected_add inp w Hc Ha). unfold bind at 1. simpl.
    by rewrite main_no_click_files. }
  split_and!; [by apply main_rejected_add|done|].
  apply load_expenses_same_ledger. unfold ledger. by rewrite Hd.
Qed.

Lemma C9_add_rejects_nonpositive_amount_witness :
  (main add_zero no_file =
     (st (sidebar_error "Please enter an amount greater than 0.") ;;;
      main (without_click add_zero)) no_file
   ∧ files (main add_zero no_file).2 = files no_file
   ∧ (load_expenses (main add_zero no_file).2).1 = (load_expenses no_file).1)
  ∧ length (rows (DataFrame_columns SCHEMA)) = 0%nat.
Proof.
  split; [|reflexivity].
  apply (C9_add_rejects_nonpositive_amount add_zero no_file);
    [reflexivity | apply Qcle_refl].
Defined.

(** C10 fails on the program's own data.  The store [one_row] is what the
    first append of the program writes; it loads with the date of its record
    as a [Timestamp].  Appending a second record rewrites the file from that
    table, so the first record's date is written with a time of day while
    the new one is written without; the two texts no longer parse as one
    column, the first record loads as a text where it loaded as a
    [Timestamp], and the next execution of [main] raises at the conversion
    of the dates.  What the first record records is kept. *)
Lemma C10_append_rewrites_the_earlier_date :
  let w' := (save_expense travel_80 one_row).2 in
  load_expenses one_row = (Ok one_row_loaded, one_row)
  ∧ load_expenses w' = (Ok two_rows_loaded, w')
  ∧ removelast (rows two_rows_loaded)
    = [mkExpense (DateStr (IsoMidnight (mkdate 2024 1 5))) "Food" (Q2Qc 120)]
  ∧ removelast (rows two_rows_loaded) ≠ rows one_row_loaded
  ∧ record_of <$> removelast (rows two_rows_loaded)
    = record_of <$> rows one_row_loaded
  ∧ (main (without_click add_travel) one_row).1 = Ok ()
  ∧ (main (without_click add_travel) w').1 = Raise ValueError.
Proof. split_and!; (by vm_compute) || discriminate. Qed.

End Claims.

(** * Further properties of the code *)

(** ** The store, beyond the claims *)

Section StoreMore.

Local Open Scope Qc_scope.

(** X1: the existence check in [load_expenses] shields the read: loading
    raises only when the file is there and cannot be parsed, never
    [FileNotFoundError], and it leaves files and page as they were. *)
Theorem X1_load_raises_only_on_unparsable (w : World) :
  (load_expenses w).1 ≠ Raise FileNotFoundError
  ∧ ((load_expenses w).1 = Raise ParserError
     ↔ files w !! CSV_FILE = Some Unparsable)
  ∧ (load_expenses w).2 = w.
Proof.
  split_and!; [| |apply load_expenses_frame];
    rewrite load_expenses_unfold; unfold ledger;
    destruct (files w !! CSV_FILE) as [[df|]|]; simpl; try done.
  all: split; intros [=].
Qed.

(** X2: when the ledger file cannot be parsed, an append raises the parse
    error before it writes: the file, the other files and the page are as
    they were. *)
Theorem X2_save_on_unparsable_file (w : World) (r : Expense) :
  files w !! CSV_FILE = Some Unparsable →
  save_expense r w = (Raise ParserError, w).
Proof.
  intros H. apply save_expense_Raise. by apply load_expenses_unparsable.
Qed.

Lemma X2_save_on_unparsable_file_witness :
  save_expense food_120 garbled = (Raise ParserError, garbled).
Proof.
  apply (X2_save_on_unparsable_file garbled food_120).
  vm_compute. reflexivity.
Defined.

(** X3: an append touches the ledger file only: every other path holds what
    it held, and nothing is rendered. *)
Theorem X3_save_touches_only_the_ledger
    (w : World) (r : Expense) (path : string) :
  path ≠ CSV_FILE →
  files (save_expense r w).2 !! path = files w !! path
  ∧ page (save_expense r w).2 = page w.
Proof.
  intros Hne. split; [by apply save_expense_other_files|].
  rewrite save_expense_unfold.
  by destruct (load_expenses w) as [[df|e] w'].
Qed.

Lemma X3_save_touches_only_the_ledger_witness :
  files (save_expense food_120 with_notes).2 !! "notes.txt"%string
  = files with_notes !! "notes.txt"%string
  ∧ page (save_expense food_120 with_notes).2 = page with_notes.
Proof.
  apply (X3_save_touches_only_the_ledger with_notes food_120 "notes.txt").
  discriminate.
Defined.

(** X4: the first append, made when there is no ledger file, creates the
    file with the three named columns and the new record as its only row. *)
Theorem X4_first_save_creates_the_ledger (w : World) (r : Expense) :
  files w !! CSV_FILE = None →
  ∃ w', save_expense r w = (Ok (), w')
        ∧ files w' !! CSV_FILE
          = Some (Table {| columns := ["Date"; "Category"; "Amount"];
                           rows := [r] |}).
Proof.
  intros Hd. eexists. split.
  - apply save_expense_Ok. rewrite load_expenses_unfold. unfold ledger.
    by rewrite Hd.
  - unfold appended. simpl. by rewrite lookup_insert_eq.
Qed.

Lemma X4_first_save_creates_the_ledger_witness :
  ∃ w', save_expense food_120 no_file = (Ok (), w')
        ∧ files w' !! CSV_FILE
          = Some (Table {| columns := ["Date"; "Category"; "Amount"];
                           rows := [food_120] |}).
Proof.
  apply (X4_first_save_creates_the_ledger no_file food_120). reflexivity.
Defined.

(** X5: an append keeps the schema: when the loaded table has the three
    named columns, so has the table written back (the columns are not
    duplicated by the concatenation). *)
Theorem X5_save_keeps_the_schema (w : World) (df : DataFrame) (r : Expense) :
  load_expenses w = (Ok df, w) →
  columns df = ["Date"; "Category"; "Amount"] →
  ∃ w' df', save_expense r w = (Ok (), w')
            ∧ load_expenses w' = (Ok df', w')
            ∧ columns df' = ["Date"; "Category"; "Amount"].
Proof.
  intros Hload Hcols. eexists _, _. split; [by apply save_expense_Ok|].
  split; [apply load_expenses_appended|]. by apply columns_concat_record.
Qed.

Lemma X5_save_keeps_the_schema_witness :
  ∃ w' df', save_expense travel_80 one_row = (Ok (), w')
            ∧ load_expenses w' = (Ok df', w')
            ∧ columns df' = ["Date"; "Category"; "Amount"].
Proof.
  apply (X5_save_keeps_the_schema one_row one_row_loaded travel_80);
    [vm_compute; reflexivity | reflexivity].
Defined.

Lemma category_totals_concat_record (df : DataFrame) (r : Expense) :
  category_totals (concat df (DataFrame_records [r]))
  = groupby_step (category_totals df) r.
Proof.
  unfold category_totals, groupby_Category_sum.
  by rewrite rows_concat_record, foldl_snoc.
Qed.

(** X7: an append touches one entry of the category mapping: afterwards the
    category of the new record is a key, and the entry of every other
    category is what it was (categories of the selectbox). *)
Theorem X7_save_touches_one_category
    (w : World) (df : DataFrame) (r : Expense) :
  load_expenses w = (Ok df, w) →
  categories_known df →
  Category r ∈ CATEGORIES →
  ∃ w' df', save_expense r w = (Ok (), w')
            ∧ load_expenses w' = (Ok df', w')
            ∧ is_Some (category_totals df' !! Category r)
            ∧ ∀ c, c ≠ Category r →
                   category_totals df' !! c = category_totals df !! c.
Proof.
  intros Hload _ _. eexists _, _. split; [by apply save_expense_Ok|].
  split; [apply load_expenses_appended|].
  rewrite category_totals_read_back, category_totals_concat_record.
  unfold groupby_step. split.
  - by rewrite lookup_insert_eq.
  - intros c Hc. by rewrite lookup_insert_ne.
Qed.

Lemma X7_save_touches_one_category_witness :
  ∃ w' df', save_expense travel_80 one_row = (Ok (), w')
            ∧ load_expenses w' = (Ok df', w')
            ∧ is_Some (category_totals df' !! Category travel_80)
            ∧ ∀ c, c ≠ Category travel_80 →
                   category_totals df' !! c
                   = category_totals one_row_loaded !! c.
Proof.
  apply (X7_save_touches_one_category one_row one_row_loaded travel_80);
    [vm_compute; reflexivity | repeat constructor | repeat constructor].
Defined.

End StoreMore.

(** ** The aggregates, beyond the claims *)

Section AggregatorMore.

Local Open Scope Qc_scope.

(** X8: the summary table lists exactly the entries of the category mapping,
    one line per category, and every line has a total at least as large as
    that of every line below it. *)
Theorem X8_summary_sorted_by_total_descending (df : DataFrame) :
  let summary := sort_values_desc (groupby_Category_sum df) in
  StronglySorted total_ge summary
  ∧ summary ≡ₚ map_to_list (category_totals df)
  ∧ (∀ c t, (c, t) ∈ summary ↔ category_totals df !! c = Some t)
  ∧ length summary = size (category_totals df).
Proof.
  unfold sort_values_desc, category_totals. simpl.
  split_and!.
  - apply (StronglySorted_merge_sort _).
  - apply merge_sort_Permutation.
  - intros c t. rewrite merge_sort_Permutation. apply elem_of_map_to_list.
  - rewrite merge_sort_Permutation. apply length_map_to_list.
Qed.

(** X10: the category mapping has at most one key per stored record. *)
Theorem X10_at_most_one_category_per_record (df : DataFrame) :
  (size (category_totals df) ≤ length (rows df))%nat.
Proof.
  unfold category_totals, groupby_Category_sum.
  etrans; [apply groupby_foldl_size|]. by rewrite map_size_empty.
Qed.

(** X11: when the stored categories all come from the selectbox list, every
    key of the category mapping is in that list and the mapping has at most
    as many keys as the list has entries, five. *)
Theorem X11_known_categories_bound_the_keys (df : DataFrame) :
  categories_known df →
  (∀ c, is_Some (category_totals df !! c) → c ∈ CATEGORIES)
  ∧ (size (category_totals df) ≤ 5)%nat.
Proof.
  intros Hknown.
  assert (∀ c, is_Some (category_totals df !! c) → c ∈ CATEGORIES) as Hkeys.
  { intros c Hc. destruct (category_totals_key df c Hc) as (r & Hr & <-).
    unfold categories_known in Hknown. rewrite Forall_forall in Hknown.
    by apply Hknown. }
  split; [done|].
  - change 5%nat with (length CATEGORIES).
    rewrite <-(size_list_to_set (C:=gset string) CATEGORIES)
      by apply NoDup_CATEGORIES.
    rewrite <-size_dom. apply subseteq_size.
    intros c Hc. apply elem_of_dom in Hc.
    apply elem_of_list_to_set. by apply Hkeys.
Qed.

Lemma X11_known_categories_bound_the_keys_witness :
  (∀ c, is_Some (category_totals two_appends !! c) → c ∈ CATEGORIES)
  ∧ (size (category_totals two_appends) ≤ 5)%nat.
Proof.
  apply (X11_known_categories_bound_the_keys two_appends).
  repeat constructor.
Defined.

End AggregatorMore.

(** ** Executions of [main], beyond the claims *)

Section MainMore.

Local Open Scope Qc_scope.

(** *** What keeps the dates from converting *)

Lemma to_datetime_Raise (cells : list DateCell) (e : exn) :
  to_datetime cells = Raise e →
  e = ValueError
  ∧ (∃ d, DateStr (Iso d) ∈ cells) ∧ (∃ d, DateStr (IsoMidnight d) ∈ cells).
Proof.
  unfold to_datetime. destruct (one_form _) eqn:Hone; [done|].
  intros [= <-]. split; [done|].
  apply one_form_false in Hone as [[d1 H1] [d2 H2]].
  unfold cell_texts in *.
  apply list_elem_of_omap in H1 as (c1 & Hc1 & Ht1).
  apply list_elem_of_omap in H2 as (c2 & Hc2 & Ht2).
  destruct c1 as [| |t1], c2 as [| |t2]; try done.
  injection Ht1 as ->. injection Ht2 as ->. eauto.
Qed.

Lemma one_form_column_texts_false (cells : list DateCell) :
  (∃ d, DateStr (Iso d) ∈ cells) →
  (∃ d, DateStr (IsoMidnight d) ∈ cells) →
  one_form (column_texts cells) = false.
Proof.
  intros [d1 H1] [d2 H2]. unfold column_texts.
  assert (forallb is_Timestamp cells = false) as ->
    by (apply forallb_false_elem; by exists (DateStr (Iso d1))).
  apply one_form_false. split; [exists d1|exists d2].
  - by apply (list_elem_of_fmap_2 date_text) in H1.
  - by apply (list_elem_of_fmap_2 date_text) in H2.
Qed.

(** Once the dates of the stored table do not convert, they never will:
    whatever is clicked, [main] raises at the conversion, the clear button
    is not reached, and the table stored afterwards is in the same state,
    with no fewer rows. *)
Lemma main_stuck (inp : Inputs) (w : World) (df : DataFrame) :
  load_expenses w = (Ok df, w) →
  to_datetime (Date <$> rows df) = Raise ValueError →
  ∃ w' df', main inp w = (Raise ValueError, w')
            ∧ load_expenses w' = (Ok df', w')
            ∧ to_datetime (Date <$> rows df') = Raise ValueError
            ∧ (length (rows df) ≤ length (rows df'))%nat.
Proof.
  intros Hload Hraise.
  destruct (to_datetime_Raise _ _ Hraise) as (_ & [d1 H1] & [d2 H2]).
  destruct (main_run inp w df Hload) as [pg Hrun].
  assert (to_datetime (Date <$> rows (table_after_add inp df))
          = Raise ValueError
          ∧ (length (rows df) ≤ length (rows (table_after_add inp df)))%nat
          ∧ load_expenses (mkWorld (files_after_add inp df w) pg)
            = (Ok (table_after_add inp df),
               mkWorld (files_after_add inp df w) pg)) as (Hr & Hlen & Hl).
  { unfold table_after_add, files_after_add.
    destruct (add_accepted inp).
    - split_and!.
      + rewrite to_datetime_read_back, rows_concat_record, fmap_app.
        rewrite one_form_column_texts_false; [done|..];
          [exists d1|exists d2]; apply elem_of_app; by left.
      + rewrite length_read_back, rows_concat_record, length_app. lia.
      + apply load_expenses_after_write.
    - split_and!; [done..|]. by apply (load_expenses_same_files w). }
  assert (displayable (table_after_add inp df) = false) as Hdis
    by (unfold displayable; by rewrite Hr).
  assert (empty (table_after_add inp df) = false) as Hemp.
  { unfold empty. destruct (rows (table_after_add inp df)); [|done].
    by vm_compute in Hr. }
  unfold clears in Hrun. rewrite Hdis, Hemp in Hrun. simpl in Hrun.
  eexists _, _. split_and!; done.
Qed.

Lemma run_session_stuck (inps : list Inputs) : ∀ (w : World) (df : DataFrame),
  load_expenses w = (Ok df, w) →
  to_datetime (Date <$> rows df) = Raise ValueError →
  ∃ w' df', run_session inps w
            = (replicate (length inps) (Raise ValueError), w')
            ∧ load_expenses w' = (Ok df', w')
            ∧ (length (rows df) ≤ length (rows df'))%nat.
Proof.
  induction inps as [|inp inps IH]; intros w df Hload Hraise.
  - exists w, df. done.
  - destruct (main_stuck inp w df Hload Hraise)
      as (w1 & df1 & Hm & Hl1 & Hr1 & Hlen1).
    destruct (IH w1 df1 Hl1 Hr1) as (w' & df' & Hs & Hl & Hlen).
    exists w', df'. simpl. rewrite Hm, Hs. split_and!; [done..|lia].
Qed.

Lemma well_formed_read_back (df : DataFrame) :
  well_formed df → well_formed (read_back df).
Proof.
  unfold well_formed, amounts_positive, categories_known.
  intros (Hc & Ha & Hk). split; [done|]. split.
  - apply (proj1 (Forall_fmap Amount (λ a, 0 < a) _)).
    rewrite Amount_read_back.
    by apply (proj2 (Forall_fmap Amount (λ a, 0 < a) _)).
  - apply (proj1 (Forall_fmap Category (λ c, c ∈ CATEGORIES) _)).
    rewrite Category_read_back.
    by apply (proj2 (Forall_fmap Category (λ c, c ∈ CATEGORIES) _)).
Qed.

Lemma well_formed_concat_entered (inp : Inputs) (df : DataFrame) :
  well_formed df → 0 < amount inp → category inp ∈ CATEGORIES →
  well_formed (concat df (DataFrame_records [entered inp])).
Proof.
  intros (Hc & Ha & Hk) Hpos Hcat. split; [by apply columns_concat_record|].
  unfold amounts_positive, categories_known. rewrite rows_concat_record.
  split; apply Forall_app; split; try done; by constructor.
Qed.

(** X12: an execution of [main] never raises [FileNotFoundError]: the load
    checks that the file exists before it reads, and the removal behind the
    clear button is only reached below a table that was just loaded from
    the file with rows in it. *)
Theorem X12_main_never_raises_FileNotFoundError (inp : Inputs) (w : World) :
  (main inp w).1 ≠ Raise FileNotFoundError.
Proof.
  destruct (ledger_cases w) as [Hd|[df Hload]].
  - by destruct (main_unparsable inp w Hd) as [pg ->].
  - destruct (main_run inp w df Hload) as [pg ->]. simpl.
    by destruct (_ || _).
Qed.

(** X14: an add with a positive amount is stored whatever happens to the
    display after it: when the execution ends, whether it returned or
    raised, the stored table records what it recorded before, followed by
    the entered date, category and amount. *)
Theorem X14_accepted_add_is_stored
    (inp : Inputs) (w : World) (df : DataFrame) :
  load_expenses w = (Ok df, w) →
  clicked inp = AddExpense →
  0 < amount inp →
  category inp ∈ CATEGORIES →
  ∃ df', (load_expenses (main inp w).2).1 = Ok df'
         ∧ record_of <$> rows df'
           = (record_of <$> rows df)
             ++ [(expense_date inp, category inp, amount inp)].
Proof.
  intros Hload Hcl Ha _.
  destruct (main_run inp w df Hload) as [pg ->]. simpl.
  rewrite clears_not_clear_click by (by rewrite Hcl).
  unfold files_after_add.
  rewrite (proj2 (add_accepted_true inp)) by done.
  unfold appended. simpl. rewrite load_expenses_after_write. simpl.
  eexists. split; [done|]. apply record_of_appended.
Qed.

Lemma X14_accepted_add_is_stored_witness :
  ∃ df', (load_expenses (main add_travel one_row).2).1 = Ok df'
         ∧ record_of <$> rows df'
           = (record_of <$> rows one_row_loaded)
             ++ [(expense_date add_travel, category add_travel,
                  amount add_travel)].
Proof.
  apply (X14_accepted_add_is_stored add_travel one_row one_row_loaded);
    [vm_compute; reflexivity | reflexivity | by vm_compute
    | repeat constructor].
Defined.

(** X15: [main] keeps the stored table in the form the program gives it:
    if the table has the three named columns, only positive amounts and only
    categories of the selectbox, and the selected category is one of the
    selectbox, the same holds for the table stored when the execution ends,
    whether it returned or raised. *)
Theorem X15_main_keeps_well_formed
    (inp : Inputs) (w : World) (df : DataFrame) :
  load_expenses w = (Ok df, w) →
  well_formed df →
  category inp ∈ CATEGORIES →
  ∃ df', (load_expenses (main inp w).2).1 = Ok df' ∧ well_formed df'.
Proof.
  intros Hload Hwf Hcat.
  destruct (main_run inp w df Hload) as [pg ->]. simpl.
  destruct (clears inp _).
  - rewrite load_expenses_after_remove. eexists. split; [done|].
    split; [done|]. split; constructor.
  - unfold files_after_add. destruct (add_accepted inp) eqn:Hacc.
    + apply add_accepted_true in Hacc as [_ Ha].
      unfold appended. simpl. rewrite load_expenses_after_write.
      eexists. split; [done|].
      by apply well_formed_read_back, well_formed_concat_entered.
    + exists df. split; [|done].
      by rewrite (load_expenses_same_files w _ df Hload).
Qed.

Lemma X15_main_keeps_well_formed_witness :
  ∃ df', (load_expenses (main add_travel one_row).2).1 = Ok df'
         ∧ well_formed df'.
Proof.
  apply (X15_main_keeps_well_formed add_travel one_row one_row_loaded);
    [vm_compute; reflexivity | | repeat constructor].
  split; [reflexivity|]. split; repeat constructor.
Defined.

(** X16: the second add breaks the display for good.  In a session that
    starts without a ledger file, the first add with a positive amount
    returns normally; the second one is saved but raises [ValueError] at the
    conversion of the dates, because the file now holds the first date with
    a time of day and the second without; and every execution after it
    raises the same error, whatever is clicked.  The clear button is never
    reached again, so the stored table keeps at least its two records. *)
Theorem X16_second_add_breaks_the_display
    (inp1 inp2 : Inputs) (inps : list Inputs) (w : World) :
  files w !! CSV_FILE = None →
  clicked inp1 = AddExpense → 0 < amount inp1 →
  clicked inp2 = AddExpense → 0 < amount inp2 →
  ∃ w' df',
    run_session (inp1 :: inp2 :: inps) w
    = (Ok () :: replicate (S (length inps)) (Raise ValueError), w')
    ∧ load_expenses w' = (Ok df', w')
    ∧ (2 ≤ length (rows df'))%nat.
Proof.
  intros Hd Hc1 Ha1 Hc2 Ha2.
  assert (load_expenses w = (Ok (DataFrame_columns SCHEMA), w)) as Hload
    by (rewrite load_expenses_unfold; unfold ledger; by rewrite Hd).
  assert (add_accepted inp1 = true) as Hacc1 by (by apply add_accepted_true).
  assert (add_accepted inp2 = true) as Hacc2 by (by apply add_accepted_true).
  (* the first add *)
  destruct (main_run inp1 w _ Hload) as [pg1 Hm1].
  unfold table_after_add, files_after_add in Hm1. rewrite Hacc1 in Hm1.
  rewrite clears_not_clear_click in Hm1 by (by rewrite Hc1).
  set (df1 := read_back (concat (DataFrame_columns SCHEMA)
                           (DataFrame_records [entered inp1]))) in *.
  assert (displayable df1 = true) as Hdis1.
  { unfold displayable. change (to_datetime (Date <$> rows df1))
      with (Ok (A:=list date) [expense_date inp1]).
    apply pie_sizes_valid_positive; [done|]. by repeat constructor. }
  rewrite Hdis1, orb_true_r in Hm1.
  set (w1 := mkWorld _ pg1) in Hm1.
  assert (load_expenses w1 = (Ok df1, w1)) as Hl1
    by apply load_expenses_after_write.
  (* the second add *)
  destruct (main_run inp2 w1 _ Hl1) as [pg2 Hm2].
  unfold table_after_add, files_after_add in Hm2. rewrite Hacc2 in Hm2.
  rewrite clears_not_clear_click in Hm2 by (by rewrite Hc2).
  set (df2 := read_back (concat df1 (DataFrame_records [entered inp2]))) in *.
  assert (to_datetime (Date <$> rows df2) = Raise ValueError) as Hr2
    by reflexivity.
  assert (displayable df2 = false) as Hdis2
    by (unfold displayable; by rewrite Hr2).
  rewrite Hdis2 in Hm2. change (empty df2) with false in Hm2. simpl in Hm2.
  set (w2 := mkWorld _ pg2) in Hm2.
  assert (load_expenses w2 = (Ok df2, w2)) as Hl2
    by apply load_expenses_after_write.
  (* everything after *)
  destruct (run_session_stuck inps w2 df2 Hl2 Hr2)
    as (w' & df' & Hs & Hl & Hlen).
  exists w', df'. split_and!; [|done|].
  - cbn [run_session]. rewrite Hm1, Hm2, Hs. reflexivity.
  - change (length (rows df2)) with 2%nat in Hlen. done.
Qed.

Lemma X16_second_add_breaks_the_display_witness :
  ∃ w' df',
    run_session (add_food :: add_travel :: [click_clear; add_zero]) no_file
    = (Ok () :: replicate (S (length [click_clear; add_zero]))
                          (Raise ValueError), w')
    ∧ load_expenses w' = (Ok df', w')
    ∧ (2 ≤ length (rows df'))%nat.
Proof.
  apply (X16_second_add_breaks_the_display
           add_food add_travel [click_clear; add_zero] no_file);
    [reflexivity | reflexivity | by vm_compute
    | reflexivity | by vm_compute].
Defined.

(** X17: the execution that accepts an add already shows the total of the
    table with the new record in it: it renders the confirmation and then
    the summary cards, with the column sum over the amounts loaded before
    and the entered amount, and the budget minus that. *)
Theorem X17_accepted_add_shows_new_total
    (inp : Inputs) (w : World) (df : DataFrame) :
  clicked inp = AddExpense →
  0 < amount inp →
  load_expenses w = (Ok df, w) →
  let total := total_spent (concat df (DataFrame_records [entered inp])) in
  ∃ rest,
    page (main inp w).2 =
      page w
      ++ [sidebar_success (amount inp) (category inp);
          metric "Monthly Budget" (budget inp) None;
          metric "Total Spent" total None;
          metric "Remaining Balance" (remaining (budget inp) total)
            (Some (delta (remaining (budget inp) total)))]
      ++ rest.
Proof.
  intros Hcl Ha Hload total.
  rewrite (main_accepted_add inp w Hcl Ha).
  unfold bind at 1. rewrite (save_expense_Ok _ _ _ Hload).
  unfold bind at 1, st at 1.
  set (w1 := mkWorld _ _).
  assert (load_expenses w1
          = (Ok (read_back (concat df (DataFrame_records [entered inp]))),
             w1)) as H1 by apply load_expenses_after_write.
  destruct (main_render_run (without_click inp) w1 _
              (without_click_not_add inp) H1) as [rest ->].
  exists rest. simpl. unfold summary_cards.
  rewrite total_spent_read_back. simpl.
  by rewrite <-!app_assoc.
Qed.

Lemma X17_accepted_add_shows_new_total_witness :
  let total := total_spent (concat one_row_loaded
                              (DataFrame_records [entered add_travel])) in
  ∃ rest,
    page (main add_travel one_row).2 =
      page one_row
      ++ [sidebar_success (amount add_travel) (category add_travel);
          metric "Monthly Budget" (budget add_travel) None;
          metric "Total Spent" total None;
          metric "Remaining Balance" (remaining (budget add_travel) total)
            (Some (delta (remaining (budget add_travel) total)))]
      ++ rest.
Proof.
  apply (X17_accepted_add_shows_new_total add_travel one_row one_row_loaded);
    [reflexivity | by vm_compute | vm_compute; reflexivity].
Defined.

(** X13: an execution of [main] reads and writes the ledger file only:
    whatever is clicked, and whether it raises or not, every other path
    holds afterwards what it held before. *)
Theorem X13_main_touches_only_the_ledger
    (inp : Inputs) (w : World) (path : string) :
  path ≠ CSV_FILE →
  files (main inp w).2 !! path = files w !! path.
Proof.
  intros Hp. by apply main_other_files.
Qed.

Lemma X13_main_touches_only_the_ledger_witness :
  files (main add_food with_notes).2 !! "notes.txt"%string
  = files with_notes !! "notes.txt"%string.
Proof.
  apply (X13_main_touches_only_the_ledger add_food with_notes "notes.txt").
  discriminate.
Defined.

(** X18: on a store without records an execution that adds nothing shows
    a total of 0, the whole budget as remaining balance with the label
    "On track", and the hint that nothing is recorded; it renders no table,
    no chart and no clear button, and writes nothing. *)
Theorem X18_empty_store_page (inp : Inputs) (w : World) (df : DataFrame) :
  load_expenses w = (Ok df, w) →
  rows df = [] →
  clicked inp ≠ AddExpense →
  0 ≤ budget inp →
  main inp w =
    (Ok (),
     mkWorld (files w)
       (page w
        ++ [metric "Monthly Budget" (budget inp) None;
            metric "Total Spent" 0 None;
            metric "Remaining Balance" (budget inp) (Some "On track"%string);
            info "No expenses recorded yet. Add your first expense from the sidebar!"])).
Proof.
  intros Hload Hrows Hcl Hb.
  unfold main, bind, button, st, ret.
  rewrite bool_decide_eq_false_2 by done. simpl. rewrite Hload.
  unfold empty, total_spent, empty. rewrite Hrows. simpl.
  assert (remaining (budget inp) 0 = budget inp) as -> by (unfold remaining; ring).
  unfold delta. rewrite decide_False by (by apply Qcle_not_lt).
  by rewrite <-!app_assoc.
Qed.

Lemma X18_empty_store_page_witness :
  main click_clear no_file =
    (Ok (),
     mkWorld (files no_file)
       (page no_file
        ++ [metric "Monthly Budget" (budget click_clear) None;
            metric "Total Spent" 0 None;
            metric "Remaining Balance" (budget click_clear)
              (Some "On track"%string);
            info "No expenses recorded yet. Add your first expense from the sidebar!"])).
Proof.
  apply (X18_empty_store_page click_clear no_file (DataFrame_columns SCHEMA));
    [reflexivity | reflexivity | discriminate | by vm_compute].
Defined.

End MainMore.
